(** * Bathtub measurements: incline calculator and record store

    A shallow embedding of [bathe.py] (the terminal form with its
    [Database] class) and of [bathtub_manager.py] (the record
    browser/editor), followed by the properties of the specification
    proved about it.

    Conventions of the embedding.
    - A Python [float] that is a number is read as a real number: the
      specification speaks of "non-negative reals", and the arithmetic
      of [calculate_incline] (subtraction, [abs], division, [math.atan],
      [math.degrees]) is written with the operations of [R].  The
      rounding of binary64 arithmetic and of the C library's [atan] is
      not part of this development, and no statement below is about the
      size of an incline.  The float [nan] is a value of the last part
      of the definitions, which gives the methods together with the
      failures of the database; the infinities are left out.
    - A Python [str] is a [string] with one [ascii] per character, which
      covers the code points up to 255 (ASCII and the Latin-1
      supplement).
    - An identifier is an integer of [Z].  The rows of the table carry
      any integer; the [sqlite3] module refuses to bind an [int]
      outside 64 bits, which is again in the last part of the
      definitions.
    - The SQLite file is a value of type [database] threaded through the
      operations: every method opens its own connection, runs one
      statement and commits, so an operation maps a database to a result
      and a new database.
    - A raised exception is a value of type [exception] in an [outcome].
    - The terminal of the interactive editor is the list of the lines
      the user types; what the programs print is not modelled. *)

From Stdlib Require Import Reals Lra ZArith Lia Bool List Ascii String.
From Stdlib Require Import DecimalString DecimalPos Permutation Sorted.
Import ListNotations.

(* ================================================================= *)
(** * Python builtins used by the two programs *)

Section PythonText.
Local Open Scope string_scope.
Local Open Scope N_scope.

(** [c.isspace()] for a character below U+0100: the ASCII controls
    tab to carriage return and file to unit separator, the space,
    NEL (U+0085) and the no-break space (U+00A0). *)
Definition py_isspace (c : ascii) : bool :=
  let n := N_of_ascii c in
  ((9 <=? n) && (n <=? 13)) || ((28 <=? n) && (n <=? 32))
  || (n =? 133) || (n =? 160).

(** [s.lstrip()]. *)
Fixpoint py_lstrip (s : string) : string :=
  match s with
  | EmptyString => EmptyString
  | String c s' => if py_isspace c then py_lstrip s' else s
  end.

(** [s.rstrip()]. *)
Fixpoint py_rstrip (s : string) : string :=
  match s with
  | EmptyString => EmptyString
  | String c s' =>
      match py_rstrip s' with
      | EmptyString => if py_isspace c then EmptyString else String c EmptyString
      | r => String c r
      end
  end.

(** [s.strip()]. *)
Definition py_strip (s : string) : string := py_rstrip (py_lstrip s).

(** Truth value of a [str]: [not s] holds for the empty string only. *)
Definition py_truthy (s : string) : bool :=
  match s with
  | EmptyString => false
  | String _ _ => true
  end.

(** No character of [s] is whitespace. *)
Fixpoint no_space (s : string) : bool :=
  match s with
  | EmptyString => true
  | String c s' => negb (py_isspace c) && no_space s'
  end.

(** Value of a decimal digit character. *)
Definition digit_value (c : ascii) : option Z :=
  let n := N_of_ascii c in
  if (48 <=? n) && (n <=? 57) then Some (Z.of_N (n - 48)) else None.

(** The digit part of an integer literal, read left to right into [acc].
    A single underscore is allowed between two digits; [after_digit]
    tells whether the previous character was a digit. *)
Fixpoint py_digitpart (s : string) (acc : Z) (after_digit : bool) : option Z :=
  match s with
  | EmptyString => if after_digit then Some acc else None
  | String c s' =>
      match digit_value c with
      | Some d => py_digitpart s' (10 * acc + d)%Z true
      | None =>
          if Ascii.eqb c "_" && after_digit then py_digitpart s' acc false
          else None
      end
  end.

(** The whitespace that [int] and [float] skip around a numeral, for a
    character below U+0100: tab to carriage return, the space, NEL
    (U+0085) and the no-break space (U+00A0).  Unlike [str.strip] the
    two builtins leave the separators U+001C to U+001F in place, and
    then reject the text. *)
Definition numeral_isspace (c : ascii) : bool :=
  let n := N_of_ascii c in
  ((9 <=? n) && (n <=? 13)) || (n =? 32) || (n =? 133) || (n =? 160).

Fixpoint numeral_lstrip (s : string) : string :=
  match s with
  | EmptyString => EmptyString
  | String c s' => if numeral_isspace c then numeral_lstrip s' else s
  end.

Fixpoint numeral_rstrip (s : string) : string :=
  match s with
  | EmptyString => EmptyString
  | String c s' =>
      match numeral_rstrip s' with
      | EmptyString =>
          if numeral_isspace c then EmptyString else String c EmptyString
      | r => String c r
      end
  end.

Definition numeral_strip (s : string) : string :=
  numeral_rstrip (numeral_lstrip s).

(** [int(s)] for a [str] in base 10: surrounding whitespace is dropped,
    then an optional sign and a digit part are read.  [None] stands for
    the [ValueError] Python raises.  (Python also raises it for a
    numeral of more than 4300 digits; numerals of that length are not
    considered.) *)
Definition py_int (s : string) : option Z :=
  match numeral_strip s with
  | String "+" t => py_digitpart t 0%Z false
  | String "-" t => option_map Z.opp (py_digitpart t 0%Z false)
  | t => py_digitpart t 0%Z false
  end.

(** [str(z)] for an [int]: the decimal numeral, with a minus sign for a
    negative number. *)
Definition py_str_of_int (z : Z) : string :=
  NilZero.string_of_int (Z.to_int z).

End PythonText.

(** A value handed to [update_field] as [new_value]: the command line
    passes a [str], the interactive editor a [str] or a [float]. *)
Inductive py_value : Type :=
  | PyStr (s : string)
  | PyFloat (x : R).

(** The exceptions the programs raise or let pass.  [IntegrityError] is
    the subclass of [sqlite3.Error] for a violated constraint;
    [OverflowError] is what the [sqlite3] module raises for an [int]
    that does not fit SQLite's 64-bit [INTEGER]. *)
Inductive exception : Type :=
  | ValueError (msg : string)
  | sqlite3_Error (msg : string)
  | sqlite3_IntegrityError (msg : string)
  | OverflowError (msg : string).

(** The result of a call: a returned value or a raised exception. *)
Inductive outcome (A : Type) : Type :=
  | Return (a : A)
  | Raise (e : exception).
Arguments Return {A} a.
Arguments Raise {A} e.

(* ================================================================= *)
(** * The incline calculator ([AddBathtubScreen.calculate_incline]) *)

Section InclineCalculator.
Local Open Scope R_scope.

(** [math.degrees(x)]: [x * (180 / pi)]. *)
Definition degrees (x : R) : R := x * (180 / PI).

(** [calculate_incline(top_length, bottom_length, height)]. *)
Definition calculate_incline (top_length bottom_length height : R) : R :=
  if Req_dec_T height 0 then 0
  else
    let horizontal_diff := Rabs (top_length - bottom_length) / 2 in
    let angle_radians := atan (horizontal_diff / height) in
    let angle_degrees := degrees angle_radians in
    angle_degrees.

End InclineCalculator.

(* ================================================================= *)
(** * The record store (table [bathtubs]) *)

Section RecordStore.
Local Open Scope string_scope.
Local Open Scope Z_scope.

(** Declared type of a column in the [CREATE TABLE] statement. *)
Inductive sql_type : Type := INTEGER | TEXT | REAL | TIMESTAMP.

(** The columns of [bathtubs], in the order of [Database.init_db]. *)
Definition bathtubs_columns : list (string * sql_type) :=
  [ ("id", INTEGER);
    ("name", TEXT);
    ("top_length", REAL);
    ("bottom_length", REAL);
    ("width", REAL);
    ("height", REAL);
    ("side_incline_degrees", REAL);
    ("liters", TEXT);
    ("created_at", TIMESTAMP) ].

(** [field] names a column of the table. *)
Definition is_column (field : string) : bool :=
  existsb (fun c => String.eqb (fst c) field) bathtubs_columns.

(** One row of [bathtubs]. *)
Record bathtub : Type := Bathtub {
  id : Z;
  name : string;
  top_length : R;
  bottom_length : R;
  width : R;
  height : R;
  side_incline_degrees : R;
  liters : string;
  created_at : string
}.

(** The database file: the rows of [bathtubs] in rowid order, and the
    counter SQLite keeps in [sqlite_sequence] for an [AUTOINCREMENT] key
    (the largest id handed out so far).  The table exists:
    [Database.__init__] runs [CREATE TABLE IF NOT EXISTS] before any other
    statement, and the manager refuses to start without the table. *)
Record database : Type := Database {
  bathtubs : list bathtub;
  sqlite_sequence : Z
}.

Definition empty_database : database :=
  {| bathtubs := []; sqlite_sequence := 0 |}.

(** Largest [id] present in the table, 0 for an empty table. *)
Definition max_rowid (rows : list bathtub) : Z :=
  fold_right (fun r m => Z.max (id r) m) 0 rows.

(** [INTEGER PRIMARY KEY AUTOINCREMENT]: one more than the largest id
    ever used, in the table or recorded in [sqlite_sequence]. *)
Definition next_rowid (db : database) : Z :=
  Z.max (max_rowid (bathtubs db)) (sqlite_sequence db) + 1.

(** [Database.add_bathtub] on real numbers: the [INSERT] statement;
    returns [cursor.lastrowid].  [now] is the value of
    [CURRENT_TIMESTAMP] the column default gives [created_at].  With
    [nan] among the numbers the statement fails; see
    [Database_add_bathtub] below. *)
Definition add_bathtub (now : string) (db : database)
    (name : string) (top_length bottom_length width height side_incline : R)
    (liters : string) : Z * database :=
  let lastrowid := next_rowid db in
  let row :=
    {| id := lastrowid;
       name := name;
       top_length := top_length;
       bottom_length := bottom_length;
       width := width;
       height := height;
       side_incline_degrees := side_incline;
       liters := liters;
       created_at := now |} in
  (lastrowid,
   {| bathtubs := bathtubs db ++ [row]; sqlite_sequence := lastrowid |}).

(** [Database.delete_bathtub] on an identifier within 64 bits:
    [DELETE FROM bathtubs WHERE id = ?]; returns [cursor.rowcount > 0].
    See [Database_delete_bathtub] below for the other identifiers. *)
Definition delete_bathtub (db : database) (bathtub_id : Z) : bool * database :=
  let hit := fun r => id r =? bathtub_id in
  let rowcount := Z.of_nat (List.length (filter hit (bathtubs db))) in
  (0 <? rowcount,
   {| bathtubs := filter (fun r => negb (hit r)) (bathtubs db);
      sqlite_sequence := sqlite_sequence db |}).

(** ** [ORDER BY name]

    Text is compared by the default [BINARY] collation, that is
    character by character.  SQL leaves the relative order of rows with
    equal names open; the insertion sort below keeps them in rowid
    order. *)
Fixpoint insert_by_name (r : bathtub) (rows : list bathtub) : list bathtub :=
  match rows with
  | [] => [r]
  | r' :: rows' =>
      if String.leb (name r) (name r') then r :: rows
      else r' :: insert_by_name r rows'
  end.

Definition order_by_name (rows : list bathtub) : list bathtub :=
  fold_right insert_by_name [] rows.

(** ** The [LIKE] operator

    SQLite's built-in [LIKE]: in the pattern, [%] matches any run of
    characters and [_] any single character; any other character
    matches itself, where the 26 ASCII letters match in either case and
    every other character only itself.  The comparison reads pattern
    and text as C strings, that is up to their first NUL character.
    (A pattern of more than 50000 bytes makes the statement fail with
    "LIKE or GLOB pattern too complex"; patterns of that length are not
    considered.) *)
Definition sqlite_tolower (c : ascii) : ascii :=
  let n := N_of_ascii c in
  if ((65 <=? n) && (n <=? 90))%N then ascii_of_N (n + 32) else c.

(** The characters before the first NUL. *)
Fixpoint c_string (s : string) : string :=
  match s with
  | EmptyString => EmptyString
  | String c s' =>
      if Ascii.eqb c Ascii.zero then EmptyString else String c (c_string s')
  end.

(** The matcher, on texts without NUL. *)
Fixpoint patternCompare (pattern text : string) : bool :=
  match pattern with
  | EmptyString =>
      match text with
      | EmptyString => true
      | String _ _ => false
      end
  | String p pattern' =>
      if Ascii.eqb p "%" then
        (fix any_run (t : string) : bool :=
           patternCompare pattern' t
           || match t with
              | EmptyString => false
              | String _ t' => any_run t'
              end) text
      else
        match text with
        | EmptyString => false
        | String c text' =>
            (Ascii.eqb p "_"
             || Ascii.eqb (sqlite_tolower p) (sqlite_tolower c))
            && patternCompare pattern' text'
        end
  end.

(** [text LIKE pattern]. *)
Definition sql_like (pattern text : string) : bool :=
  patternCompare (c_string pattern) (c_string text).

End RecordStore.

(* ================================================================= *)
(** * The record browser/editor ([BathtubDatabaseManager]) *)

Section Manager.
Local Open Scope string_scope.
Local Open Scope Z_scope.

(** The two builtins whose results on a real number are not computed
    here.  [float_of_string s] is [float(s)] for a [str]: the number
    read, or the message of the [ValueError] raised.  [float_repr x] is
    [str(x)] for a [float]. *)
Variable float_of_string : string -> string + R.
Variable float_repr : R -> string.

(** The type objects that occur as ['type'] in [FIELDS]. *)
Inductive py_type : Type := py_str | py_float.

(** An entry of [FIELDS].  The key ['readonly'] is present for
    [created_at] only, hence the option. *)
Record field_info : Type := FieldInfo {
  type : py_type;
  description : string;
  required : bool;
  readonly : option bool
}.

(** [BathtubDatabaseManager.FIELDS], in source order. *)
Definition FIELDS : list (string * field_info) :=
  [ ("name",
     {| type := py_str; description := "Bathtub name";
        required := true; readonly := None |});
    ("top_length",
     {| type := py_float; description := "Top length (cm)";
        required := true; readonly := None |});
    ("bottom_length",
     {| type := py_float; description := "Bottom length (cm)";
        required := true; readonly := None |});
    ("width",
     {| type := py_float; description := "Width (cm)";
        required := true; readonly := None |});
    ("height",
     {| type := py_float; description := "Height (cm)";
        required := true; readonly := None |});
    ("side_incline_degrees",
     {| type := py_float; description := "Side incline (degrees)";
        required := true; readonly := None |});
    ("liters",
     {| type := py_str; description := "Capacity in liters";
        required := false; readonly := None |});
    ("created_at",
     {| type := py_str; description := "Creation timestamp";
        required := false; readonly := Some true |}) ].

(** [FIELDS[field]], [None] when [field not in FIELDS]. *)
Fixpoint dict_get {A : Type} (d : list (string * A)) (key : string) : option A :=
  match d with
  | [] => None
  | (k, v) :: d' => if String.eqb k key then Some v else dict_get d' key
  end.

(** [info.get('readonly', False)]. *)
Definition get_readonly (info : field_info) : bool :=
  match readonly info with
  | Some b => b
  | None => false
  end.

(** [BathtubDatabaseManager.search_entries].  [search_term = None] lists
    the whole table by name; with [search_by_id] the term is read as an
    integer and a term that is not one gives the empty list; otherwise
    the names are matched against [%search_term%]. *)
Definition search_entries (db : database) (search_term : option string)
    (search_by_id : bool) : list bathtub :=
  match search_term with
  | None => order_by_name (bathtubs db)
  | Some term =>
      if search_by_id then
        match py_int term with
        | Some entry_id => filter (fun r => id r =? entry_id) (bathtubs db)
        | None => []
        end
      else
        order_by_name
          (filter (fun r => sql_like ("%" ++ term ++ "%") (name r))
                  (bathtubs db))
  end.

(** [BathtubDatabaseManager.get_entry_by_id]. *)
Definition get_entry_by_id (db : database) (entry_id : Z) : option bathtub :=
  match search_entries db (Some (py_str_of_int entry_id)) true with
  | entry :: _ => Some entry
  | [] => None
  end.

(** A value bound to the [?] of the [UPDATE] statement. *)
Inductive sql_value : Type :=
  | SqlText (s : string)
  | SqlReal (x : R).

(** The conversion [expected_type(new_value)] of [update_field]: the
    converted value, or the message of the [ValueError] raised.  No
    field declares the type [int], so that branch of the source is never
    taken. *)
Definition convert_value (expected_type : py_type) (new_value : py_value)
    : string + sql_value :=
  match expected_type, new_value with
  | py_float, PyStr s =>
      match float_of_string s with
      | inl e => inl e
      | inr x => inr (SqlReal x)
      end
  | py_float, PyFloat x => inr (SqlReal x)
  | py_str, PyStr s => inr (SqlText s)
  | py_str, PyFloat x => inr (SqlText (float_repr x))
  end.

(** [SET field = ?] on one row.  [update_field] reaches this with an
    editable key of [FIELDS] and a value of the type that key declares;
    the remaining combinations leave the row as it is. *)
Definition set_column (field : string) (v : sql_value) (r : bathtub) : bathtub :=
  match v with
  | SqlText s =>
      if String.eqb field "name" then
        Bathtub (id r) s (top_length r) (bottom_length r) (width r)
                (height r) (side_incline_degrees r) (liters r) (created_at r)
      else if String.eqb field "liters" then
        Bathtub (id r) (name r) (top_length r) (bottom_length r) (width r)
                (height r) (side_incline_degrees r) s (created_at r)
      else r
  | SqlReal x =>
      if String.eqb field "top_length" then
        Bathtub (id r) (name r) x (bottom_length r) (width r)
                (height r) (side_incline_degrees r) (liters r) (created_at r)
      else if String.eqb field "bottom_length" then
        Bathtub (id r) (name r) (top_length r) x (width r)
                (height r) (side_incline_degrees r) (liters r) (created_at r)
      else if String.eqb field "width" then
        Bathtub (id r) (name r) (top_length r) (bottom_length r) x
                (height r) (side_incline_degrees r) (liters r) (created_at r)
      else if String.eqb field "height" then
        Bathtub (id r) (name r) (top_length r) (bottom_length r) (width r)
                x (side_incline_degrees r) (liters r) (created_at r)
      else if String.eqb field "side_incline_degrees" then
        Bathtub (id r) (name r) (top_length r) (bottom_length r) (width r)
                (height r) x (liters r) (created_at r)
      else r
  end.

(** [UPDATE bathtubs SET field = ? WHERE id = ?]: the number of rows
    the statement touched ([cursor.rowcount]) and the new database. *)
Definition execute_update (db : database) (field : string) (v : sql_value)
    (entry_id : Z) : Z * database :=
  let hit := fun r => id r =? entry_id in
  (Z.of_nat (List.length (filter hit (bathtubs db))),
   {| bathtubs :=
        map (fun r => if hit r then set_column field v r else r) (bathtubs db);
      sqlite_sequence := sqlite_sequence db |}).

(** The three [ValueError]s of [update_field], with their messages. *)
Definition UnknownFieldError (field : string) : exception :=
  ValueError ("Unknown field: " ++ field).

Definition ReadOnlyFieldError (field : string) : exception :=
  ValueError ("Field '" ++ field ++ "' is read-only").

Definition InvalidValueError (field e : string) : exception :=
  ValueError ("Invalid value for field '" ++ field ++ "': " ++ e).

(** [BathtubDatabaseManager.update_field] on a value that is a text
    or a real number and an identifier within 64 bits: there the
    [UPDATE] statement does not fail, and the handler of
    [sqlite3.Error] stays idle.  The method on the other arguments is
    [BathtubDatabaseManager_update_field] below. *)
Definition update_field (db : database) (entry_id : Z) (field : string)
    (new_value : py_value) : outcome bool * database :=
  match dict_get FIELDS field with
  | None => (Raise (UnknownFieldError field), db)
  | Some info =>
      if get_readonly info then (Raise (ReadOnlyFieldError field), db)
      else
        match convert_value (type info) new_value with
        | inl e => (Raise (InvalidValueError field e), db)
        | inr v =>
            let (rowcount, db') := execute_update db field v entry_id in
            (Return (0 <? rowcount), db')
        end
  end.

End Manager.

(* ================================================================= *)
(** * The interactive form ([AddBathtubScreen]) *)

Section Form.
Local Open Scope string_scope.

(** [float(s)] for a [str], as in the manager. *)
Variable float_of_string : string -> string + R.

(** The CSS class that styles the banner below the form. *)
Inductive banner_class : Type := result_display_class | error_display_class.

(** What the banner shows: a plain text, or the success line
    [Saved '<name>' with side incline: <incline>] whose number is
    printed with two decimals. *)
Inductive banner_text : Type :=
  | Plain (s : string)
  | Saved (name : string) (incline : R).

(** The widgets of the screen that [save_bathtub] reads and writes: the
    [value] of the six inputs, and the banner. *)
Record screen : Type := Screen {
  name_input : string;
  top_length_input : string;
  bottom_length_input : string;
  width_input : string;
  height_input : string;
  liters_input : string;
  result_display : banner_text * banner_class
}.

(** The screen as [compose] builds it. *)
Definition compose : screen :=
  {| name_input := ""; top_length_input := ""; bottom_length_input := "";
     width_input := ""; height_input := ""; liters_input := "";
     result_display := (Plain "", result_display_class) |}.

(** The validator [Number(minimum=0)] that [compose] attaches to the
    four measurement inputs: the text must read as a number that is at
    least the minimum.  Textual runs it when the text changes and marks
    the widget valid or invalid; the text stays in [value] either way. *)
Definition Number (minimum : R) (value : string) : bool :=
  match float_of_string value with
  | inr x => if Rle_dec minimum x then true else false
  | inl _ => false
  end.

(** The four measurement inputs all pass their validator. *)
Definition measurements_valid (s : screen) : bool :=
  Number 0 (top_length_input s) && Number 0 (bottom_length_input s)
  && Number 0 (width_input s) && Number 0 (height_input s).

(** The banner in error style; the inputs keep their text. *)
Definition show_error (s : screen) (msg : string) : screen :=
  Screen (name_input s) (top_length_input s) (bottom_length_input s)
         (width_input s) (height_input s) (liters_input s)
         (Plain msg, error_display_class).

(** [AddBathtubScreen.save_bathtub], the handler of the save button.
    The four [float] conversions stand in one [try] block: the first that
    raises sends control to the handler. *)
Definition save_bathtub (now : string) (db : database) (s : screen)
    : database * screen :=
  if negb (py_truthy (name_input s)) then
    (db, show_error s "Please enter a name")
  else
    match float_of_string (top_length_input s),
          float_of_string (bottom_length_input s),
          float_of_string (width_input s),
          float_of_string (height_input s) with
    | inr top_length, inr bottom_length, inr width, inr height =>
        let liters :=
          if py_truthy (py_strip (liters_input s))
          then py_strip (liters_input s) else "N/A" in
        let incline := calculate_incline top_length bottom_length height in
        let (bathtub_id, db') :=
          add_bathtub now db (name_input s) top_length bottom_length
                      width height incline liters in
        (db',
         {| name_input := ""; top_length_input := "";
            bottom_length_input := ""; width_input := "";
            height_input := ""; liters_input := "";
            result_display :=
              (Saved (name_input s) incline, result_display_class) |})
    | _, _, _, _ =>
        (db, show_error s "Please enter valid numeric values")
    end.

End Form.

(** ** A reader for plain decimal literals

    Python's [float] accepts more than is written here (exponents,
    [inf], [nan], digit-group underscores).  The examples below need
    concrete numbers, and on an optionally signed run of digits with an
    optional fraction, surrounded by whitespace, [float] reads the number
    this function returns. *)
Section DecimalLiteral.
Local Open Scope string_scope.

Fixpoint all_digits (s : string) : bool :=
  match s with
  | EmptyString => true
  | String c s' =>
      match digit_value c with
      | Some _ => all_digits s'
      | None => false
      end
  end.

(** The text before and after the first ["."]. *)
Fixpoint split_at_point (s : string) : string * option string :=
  match s with
  | EmptyString => (EmptyString, None)
  | String c s' =>
      if Ascii.eqb c "." then (EmptyString, Some s')
      else let (a, b) := split_at_point s' in (String c a, b)
  end.

Definition unsigned_decimal (s : string) : option R :=
  match split_at_point s with
  | (whole, None) =>
      if all_digits whole
      then option_map IZR (py_digitpart whole 0%Z false) else None
  | (whole, Some frac) =>
      if all_digits whole && all_digits frac
         && (py_truthy whole || py_truthy frac)
      then
        match py_digitpart (whole ++ frac) 0%Z false with
        | Some m => Some (IZR m / IZR (10 ^ Z.of_nat (String.length frac)))%R
        | None => None
        end
      else None
  end.

Definition decimal_float (s : string) : string + R :=
  let failure := inl ("could not convert string to float: '" ++ s ++ "'") in
  match numeral_strip s with
  | String "+" t =>
      match unsigned_decimal t with Some x => inr x | None => failure end
  | String "-" t =>
      match unsigned_decimal t with Some x => inr (- x)%R | None => failure end
  | t =>
      match unsigned_decimal t with Some x => inr x | None => failure end
  end.

(** [str(x)] for a [float] is not computed in this development.  The
    examples never print a float; where a printer is asked for they pass
    this placeholder. *)
Definition float_repr_placeholder (x : R) : string := "<float>".

End DecimalLiteral.

(* ================================================================= *)
(** * Notions the specification uses *)

Section SpecificationNotions.
Local Open Scope string_scope.

(** Character-wise image of a text. *)
Fixpoint map_string (f : ascii -> ascii) (s : string) : string :=
  match s with
  | EmptyString => EmptyString
  | String c s' => String (f c) (map_string f s')
  end.

(** Letter case as Python's [str.lower] has it on the characters below
    U+0100: the ASCII capitals and the Latin-1 capitals U+00C0 to U+00DE
    (without the multiplication sign U+00D7) map to the letter 32
    places further. *)
Definition py_lower_char (c : ascii) : ascii :=
  let n := N_of_ascii c in
  if (((65 <=? n) && (n <=? 90))
      || ((192 <=? n) && (n <=? 214))
      || ((216 <=? n) && (n <=? 222)))%N
  then ascii_of_N (n + 32) else c.

(** [name] contains [text] up to the case folding [fold]: some run of
    consecutive characters of [name] and [text] have the same image. *)
Definition contains_up_to (fold : ascii -> ascii) (text name : string) : Prop :=
  exists before matched after : string,
    name = before ++ matched ++ after
    /\ map_string fold matched = map_string fold text.

End SpecificationNotions.

(* ================================================================= *)
(** * Sample data *)

(** A table holding the record of the specification's scenario:
    "Classic", 150 by 120 by 70 by 45, 180 liters. *)
Definition classic_db : database :=
  snd (add_bathtub "2024-05-01 09:30:00" empty_database "Classic"
         150 120 70 45 (calculate_incline 150 120 45) "180").

(* ================================================================= *)
(** * Further parts of the two programs *)

Section MoreStore.
Local Open Scope string_scope.
Local Open Scope Z_scope.

(** ** [ORDER BY created_at DESC]

    The timestamps are texts of the form [YYYY-MM-DD HH:MM:SS] and are
    compared character by character; rows with equal timestamps stay in
    rowid order, which SQL leaves open. *)
Fixpoint insert_by_created_at_desc (r : bathtub) (rows : list bathtub)
    : list bathtub :=
  match rows with
  | [] => [r]
  | r' :: rows' =>
      if String.leb (created_at r') (created_at r) then r :: rows
      else r' :: insert_by_created_at_desc r rows'
  end.

Definition order_by_created_at_desc (rows : list bathtub) : list bathtub :=
  fold_right insert_by_created_at_desc [] rows.

(** [Database.get_all_bathtubs]: the whole table, newest first. *)
Definition get_all_bathtubs (db : database) : list bathtub :=
  order_by_created_at_desc (bathtubs db).

(** The two orders of the listings: [r1] may stand before [r2]. *)
Definition name_le (r1 r2 : bathtub) : Prop :=
  String.leb (name r1) (name r2) = true.

Definition created_at_ge (r1 r2 : bathtub) : Prop :=
  String.leb (created_at r2) (created_at r1) = true.

(** [text] read as a [LIKE] pattern without [%] accepts [matched]: the
    two have the same length, and each character of [text] is an
    underscore or equals the character of [matched] at its place up to
    the case of ASCII letters. *)
Fixpoint accepts_with_underscores (text matched : string) : bool :=
  match text, matched with
  | EmptyString, EmptyString => true
  | String p text', String c matched' =>
      (Ascii.eqb p "_" || Ascii.eqb (sqlite_tolower p) (sqlite_tolower c))
      && accepts_with_underscores text' matched'
  | _, _ => false
  end.

(** The primary key: no two rows of the table share an [id]. *)
Definition unique_ids (db : database) : Prop :=
  NoDup (map id (bathtubs db)).

(** A value in a row as Python sees it. *)
Inductive py_cell : Type :=
  | CellInt (z : Z)
  | CellStr (s : string)
  | CellFloat (x : R).

(** [dict(row)]: the row as a dictionary from column name to value, in
    the order of the [SELECT] list. *)
Definition row_dict (r : bathtub) : list (string * py_cell) :=
  [ ("id", CellInt (id r));
    ("name", CellStr (name r));
    ("top_length", CellFloat (top_length r));
    ("bottom_length", CellFloat (bottom_length r));
    ("width", CellFloat (width r));
    ("height", CellFloat (height r));
    ("side_incline_degrees", CellFloat (side_incline_degrees r));
    ("liters", CellStr (liters r));
    ("created_at", CellStr (created_at r)) ].

(** The Python value of a value bound to a statement. *)
Definition cell_of_sql_value (v : sql_value) : py_cell :=
  match v with
  | SqlText s => CellStr s
  | SqlReal x => CellFloat x
  end.

(** A table with the record "Classic" and a second record "Corner". *)
Definition two_records_db : database :=
  snd (add_bathtub "2024-05-02 08:00:00" classic_db "Corner"
         140 140 75 50 0 "N/A").

End MoreStore.

(* ================================================================= *)
(** * The interactive editor: choosing a field and a value *)

(** Reading from the terminal.  The lines the user will type are a list;
    each [input()] takes the first one, and raises [EOFError] when none
    is left.  A function returns a value together with the lines not yet
    read, or ends in [EOFError] or in another exception it does not
    catch.  What the functions print is not modelled. *)
Inductive console (A : Type) : Type :=
  | Answer (a : A) (rest : list string)
  | EOFError
  | Uncaught (e : exception).
Arguments Answer {A} a rest.
Arguments EOFError {A}.
Arguments Uncaught {A} e.

(** [rest] is what is left of [inputs] after some lines were read. *)
Definition left_of (rest inputs : list string) : Prop :=
  exists consumed : list string, inputs = (consumed ++ rest)%list.

Section InteractiveEditor.
Local Open Scope string_scope.
Local Open Scope Z_scope.

(** [float(s)] for a [str], as in the manager. *)
Variable float_of_string : string -> string + R.

(** [editable_fields]: the entries of [FIELDS] that are not read-only,
    in source order. *)
Definition editable_fields : list (string * field_info) :=
  filter (fun entry => negb (get_readonly (snd entry))) FIELDS.

(** The first loop of [interactive_field_selection]: lines are read
    until one is an integer between 1 and the number of editable fields;
    the field with that number is chosen.  The last branch is not
    reached, the index being in range. *)
Fixpoint select_field (inputs : list string)
    : console (string * field_info) :=
  match inputs with
  | [] => EOFError
  | line :: rest =>
      match py_int line with
      | Some choice =>
          if (1 <=? choice)
             && (choice <=? Z.of_nat (List.length editable_fields))
          then
            match nth_error editable_fields (Z.to_nat (choice - 1)) with
            | Some chosen => Answer chosen rest
            | None => select_field rest
            end
          else select_field rest
      | None => select_field rest
      end
  end.

(** The second loop: lines are read and stripped until one is usable.
    A blank line gives ['N/A'] for a field that is not required and is
    asked again for a required one; any other line is converted to the
    type of the field, and asked again when [float] rejects it. *)
Fixpoint enter_value (info : field_info) (inputs : list string)
    : console py_value :=
  match inputs with
  | [] => EOFError
  | line :: rest =>
      let new_value := py_strip line in
      if negb (py_truthy new_value) && negb (required info) then
        Answer (PyStr "N/A") rest
      else if negb (py_truthy new_value) && required info then
        enter_value info rest
      else
        match type info with
        | py_float =>
            match float_of_string new_value with
            | inr x => Answer (PyFloat x) rest
            | inl _ => enter_value info rest
            end
        | py_str => Answer (PyStr new_value) rest
        end
  end.

(** [BathtubDatabaseManager.interactive_field_selection]: the name of
    the chosen field and the new value.  The entry is only printed. *)
Definition interactive_field_selection (entry : bathtub)
    (inputs : list string) : console (string * py_value) :=
  match select_field inputs with
  | EOFError => EOFError
  | Uncaught e => Uncaught e
  | Answer (field_name, info) rest =>
      match enter_value info rest with
      | EOFError => EOFError
      | Uncaught e => Uncaught e
      | Answer new_value rest' => Answer (field_name, new_value) rest'
      end
  end.

(** ** Searching, selecting and confirming *)

(** [datetime.fromisoformat(s)]: [None] when the text is read, or the
    message of the [ValueError] raised.  The date itself is only
    printed. *)
Variable fromisoformat_error : string -> option string.

(** [BathtubDatabaseManager.display_entries].  Nothing is returned; the
    full display reads the creation time of each entry in turn, and the
    first that [fromisoformat] rejects ends the call with its
    [ValueError]. *)
Fixpoint display_rows (entries : list bathtub) : outcome unit :=
  match entries with
  | [] => Return tt
  | entry :: entries' =>
      match fromisoformat_error (created_at entry) with
      | Some msg => Raise (ValueError msg)
      | None => display_rows entries'
      end
  end.

Definition display_entries (entries : list bathtub) (show_all : bool)
    : outcome unit :=
  match entries with
  | [] => Return tt
  | _ :: _ => if show_all then display_rows entries else Return tt
  end.

(** The first loop of [interactive_search]: the menu choice, then the
    name or the identifier to look for.  An empty name, an identifier
    that is not an integer and an unknown choice ask again. *)
Fixpoint search_menu (db : database) (inputs : list string)
    : console (list bathtub) :=
  match inputs with
  | [] => EOFError
  | line :: rest =>
      let choice := py_strip line in
      if String.eqb choice "1" then
        match rest with
        | [] => EOFError
        | line2 :: rest2 =>
            let search_term := py_strip line2 in
            if negb (py_truthy search_term) then search_menu db rest2
            else Answer (search_entries db (Some search_term) false) rest2
        end
      else if String.eqb choice "2" then
        match rest with
        | [] => EOFError
        | line2 :: rest2 =>
            match py_int (py_strip line2) with
            | Some entry_id =>
                Answer (search_entries db (Some (py_str_of_int entry_id)) true)
                       rest2
            | None => search_menu db rest2
            end
        end
      else if String.eqb choice "3" then
        Answer (search_entries db None false) rest
      else search_menu db rest
  end.

(** The second loop of [interactive_search]: lines are read until one is
    the identifier of one of the entries found. *)
Fixpoint choose_entry (entries : list bathtub) (inputs : list string)
    : console (option bathtub) :=
  match inputs with
  | [] => EOFError
  | line :: rest =>
      match py_int line with
      | Some entry_id =>
          match find (fun e => id e =? entry_id) entries with
          | Some selected_entry => Answer (Some selected_entry) rest
          | None => choose_entry entries rest
          end
      | None => choose_entry entries rest
      end
  end.

(** [BathtubDatabaseManager.interactive_search]: [None] when nothing was
    found, the entry when one was found, the entry the user picks when
    several were. *)
Definition interactive_search (db : database) (inputs : list string)
    : console (option bathtub) :=
  match search_menu db inputs with
  | EOFError => EOFError
  | Uncaught e => Uncaught e
  | Answer entries rest =>
      match entries with
      | [] => Answer None rest
      | first :: others =>
          match display_entries entries true with
          | Raise e => Uncaught e
          | Return _ =>
              match others with
              | [] => Answer (Some first) rest
              | _ :: _ => choose_entry entries rest
              end
          end
      end
  end.

(** [confirm in ['y', 'yes']] for [confirm = input(...).strip().lower()]. *)
Definition confirmed (line : string) : bool :=
  let confirm := map_string py_lower_char (py_strip line) in
  String.eqb confirm "y" || String.eqb confirm "yes".

Variable float_repr : R -> string.

(** The body of the [try] block in [run_interactive], for a selected
    entry: field and value are asked for, then the confirmation; the
    update runs when the answer is [y] or [yes].  Every exception is
    caught by the handler of the block, which prints it, so the result
    is the database and the lines left; after an [EOFError] no line is
    left. *)
Definition modify_entry (db : database) (entry : bathtub)
    (inputs : list string) : database * list string :=
  match interactive_field_selection entry inputs with
  | EOFError => (db, [])
  | Uncaught _ => (db, [])
  | Answer (field, new_value) rest =>
      match rest with
      | [] => (db, [])
      | line :: rest' =>
          if confirmed line then
            (snd (update_field float_of_string float_repr db (id entry)
                               field new_value),
             rest')
          else (db, rest')
      end
  end.

(** The main loop of [BathtubDatabaseManager.run_interactive].  Each
    turn reads at least one line, so [fuel] turns are enough for a list
    of fewer than [fuel] lines.  The result is the database at the end
    and how the loop ended: [Answer tt] for the exit choice. *)
Fixpoint run_interactive_loop (fuel : nat) (db : database)
    (inputs : list string) : database * console unit :=
  match fuel with
  | O => (db, EOFError)
  | S fuel' =>
      match inputs with
      | [] => (db, EOFError)
      | line :: rest =>
          let choice := py_strip line in
          if String.eqb choice "1" then
            match interactive_search db rest with
            | EOFError => (db, EOFError)
            | Uncaught e => (db, Uncaught e)
            | Answer None rest' => run_interactive_loop fuel' db rest'
            | Answer (Some entry) rest' =>
                let (db', rest'') := modify_entry db entry rest' in
                run_interactive_loop fuel' db' rest''
            end
          else if String.eqb choice "2" then
            match display_entries (search_entries db None false) true with
            | Raise e => (db, Uncaught e)
            | Return _ => run_interactive_loop fuel' db rest
            end
          else if String.eqb choice "3" then (db, Answer tt rest)
          else run_interactive_loop fuel' db rest
      end
  end.

(** [BathtubDatabaseManager.run_interactive]. *)
Definition run_interactive (db : database) (inputs : list string)
    : database * console unit :=
  run_interactive_loop (S (List.length inputs)) db inputs.

End InteractiveEditor.

(* ================================================================= *)
(** * The methods with the failures of the database

    The functions above are the methods on real numbers and on
    statements that run to their end.  Two kinds of argument make a
    statement fail.  The float [nan], which [float] reads from the text
    ["nan"], is bound as [NULL], and the measurement columns are
    declared [NOT NULL]; an [int] outside the 64 bits of SQLite's
    [INTEGER] is not bound at all.  This part gives the methods on these
    arguments too, with the exceptions they raise.  The infinities
    [inf] and [-inf], which SQLite stores like numbers, are not values
    of [python_float]: a row of [bathtub] holds real numbers. *)

(** A Python [float]: a real number, or [nan]. *)
Inductive python_float : Type :=
  | Finite (x : R)
  | NaN.

(** A value handed to [update_field]: a [str] or a [float]. *)
Inductive python_value : Type :=
  | Str (s : string)
  | Float (f : python_float).


Section DatabaseFailures.
Local Open Scope string_scope.
Local Open Scope Z_scope.

(** [float(s)] for a [str], with [nan] among its results, and [str(f)]
    for a [float]. *)
Variable python_float_of_string : string -> string + python_float.
Variable python_float_repr : python_float -> string.

(** ** Binding parameters *)

(** The integers of SQLite's [INTEGER]. *)
Definition int64 (z : Z) : bool := (- 2 ^ 63 <=? z) && (z <? 2 ^ 63).

(** An [int] bound to a [?]. *)
Definition bind_int (z : Z) : outcome Z :=
  if int64 z then Return z
  else Raise (OverflowError "Python int too large to convert to SQLite INTEGER").

(** A [str] or [float] bound to a [?]: [None] is [NULL], which is what
    the module binds for [nan]. *)
Definition bind_value (v : python_value) : option sql_value :=
  match v with
  | Str s => Some (SqlText s)
  | Float (Finite x) => Some (SqlReal x)
  | Float NaN => None
  end.

(** [isinstance(e, sqlite3.Error)] and [str(e)]. *)
Definition is_sqlite3_Error (e : exception) : bool :=
  match e with
  | sqlite3_Error _ | sqlite3_IntegrityError _ => true
  | ValueError _ | OverflowError _ => false
  end.

Definition exception_str (e : exception) : string :=
  match e with
  | ValueError msg | sqlite3_Error msg | sqlite3_IntegrityError msg
  | OverflowError msg => msg
  end.

Definition NotNullError (column : string) : exception :=
  sqlite3_IntegrityError ("NOT NULL constraint failed: bathtubs." ++ column).

(** ** [BathtubDatabaseManager.update_field] *)

(** The conversion [expected_type(new_value)]. *)
Definition python_convert (expected_type : py_type) (new_value : python_value)
    : string + python_value :=
  match expected_type, new_value with
  | py_float, Str s =>
      match python_float_of_string s with
      | inl e => inl e
      | inr f => inr (Float f)
      end
  | py_float, Float f => inr (Float f)
  | py_str, Str s => inr (Str s)
  | py_str, Float f => inr (Str (python_float_repr f))
  end.

(** [conn.execute("UPDATE bathtubs SET field = ? WHERE id = ?",
    (new_value, entry_id))] inside [with sqlite3.connect(...)]: the
    row count, or the exception raised, and the database after the
    commit or the rollback.  Both parameters are bound before the
    statement runs.  A [NULL] reaches one of the five measurement
    columns only ([update_field] converts to [float] for these and to
    [str] for the others), and they are [NOT NULL]: the statement
    fails on the first row it would write, and writes nothing when no
    row has the id. *)
Definition sqlite3_update (db : database) (field : string)
    (new_value : python_value) (entry_id : Z) : outcome Z * database :=
  match bind_int entry_id with
  | Raise e => (Raise e, db)
  | Return bound_id =>
      match bind_value new_value with
      | Some v =>
          let (rowcount, db') := execute_update db field v bound_id in
          (Return rowcount, db')
      | None =>
          if existsb (fun r => id r =? bound_id) (bathtubs db)
          then (Raise (NotNullError field), db)
          else (Return 0, db)
      end
  end.

(** The method, with its two [try] blocks. *)
Definition BathtubDatabaseManager_update_field (db : database) (entry_id : Z)
    (field : string) (new_value : python_value) : outcome bool * database :=
  match dict_get FIELDS field with
  | None => (Raise (UnknownFieldError field), db)
  | Some info =>
      if get_readonly info then (Raise (ReadOnlyFieldError field), db)
      else
        match python_convert (type info) new_value with
        | inl e => (Raise (InvalidValueError field e), db)
        | inr converted =>
            match sqlite3_update db field converted entry_id with
            | (Return rowcount, db') => (Return (0 <? rowcount), db')
            | (Raise e, db') =>
                if is_sqlite3_Error e
                then (Raise (sqlite3_Error
                               ("Database error: " ++ exception_str e)), db')
                else (Raise e, db')
            end
        end
  end.

(** ** [Database.delete_bathtub] and [Database.add_bathtub] *)

Definition Database_delete_bathtub (db : database) (bathtub_id : Z)
    : outcome bool * database :=
  match bind_int bathtub_id with
  | Raise e => (Raise e, db)
  | Return bound_id =>
      let (deleted, db') := delete_bathtub db bound_id in
      (Return deleted, db')
  end.

(** The [INSERT]: the first [NOT NULL] column, in the order of the
    table, that would receive [NULL] fails the statement. *)
Definition Database_add_bathtub (now : string) (db : database)
    (name : string)
    (top_length bottom_length width height side_incline : python_float)
    (liters : string) : outcome Z * database :=
  match top_length with
  | NaN => (Raise (NotNullError "top_length"), db)
  | Finite top_length =>
  match bottom_length with
  | NaN => (Raise (NotNullError "bottom_length"), db)
  | Finite bottom_length =>
  match width with
  | NaN => (Raise (NotNullError "width"), db)
  | Finite width =>
  match height with
  | NaN => (Raise (NotNullError "height"), db)
  | Finite height =>
  match side_incline with
  | NaN => (Raise (NotNullError "side_incline_degrees"), db)
  | Finite side_incline =>
      let (lastrowid, db') :=
        add_bathtub now db name top_length bottom_length width height
                    side_incline liters in
      (Return lastrowid, db')
  end end end end end.

(** ** [AddBathtubScreen.calculate_incline] and [save_bathtub] *)

(** Arithmetic with [nan]: an operation with [nan] among its arguments
    gives [nan], and a comparison with [nan] is false. *)
Definition float_lift1 (f : R -> R) (a : python_float) : python_float :=
  match a with
  | Finite x => Finite (f x)
  | NaN => NaN
  end.

Definition float_lift2 (f : R -> R -> R) (a b : python_float) : python_float :=
  match a, b with
  | Finite x, Finite y => Finite (f x y)
  | _, _ => NaN
  end.

Definition float_eqb (a b : python_float) : bool :=
  match a, b with
  | Finite x, Finite y => if Req_dec_T x y then true else false
  | _, _ => false
  end.

(** The two divisions have a divisor that is not zero: the literal 2,
    and a height that failed the test [height == 0]. *)
Definition AddBathtubScreen_calculate_incline
    (top_length bottom_length height : python_float) : python_float :=
  if float_eqb height (Finite 0) then Finite 0
  else
    let horizontal_diff :=
      float_lift2 Rdiv
        (float_lift1 Rabs (float_lift2 Rminus top_length bottom_length))
        (Finite 2) in
    let angle_radians :=
      float_lift1 atan (float_lift2 Rdiv horizontal_diff height) in
    let angle_degrees := float_lift1 degrees angle_radians in
    angle_degrees.

(** The handler of the save button.  An exception of [add_bathtub] is
    not caught: it leaves the handler with the widgets as they were.
    The success line prints the incline, which is a number when the
    insert went through; the branch for [nan] is not reached. *)
Definition AddBathtubScreen_save_bathtub (now : string) (db : database)
    (s : screen) : database * outcome screen :=
  if negb (py_truthy (name_input s)) then
    (db, Return (show_error s "Please enter a name"))
  else
    match python_float_of_string (top_length_input s),
          python_float_of_string (bottom_length_input s),
          python_float_of_string (width_input s),
          python_float_of_string (height_input s) with
    | inr top_length, inr bottom_length, inr width, inr height =>
        let liters :=
          if py_truthy (py_strip (liters_input s))
          then py_strip (liters_input s) else "N/A" in
        let incline :=
          AddBathtubScreen_calculate_incline top_length bottom_length height in
        match Database_add_bathtub now db (name_input s) top_length
                bottom_length width height incline liters, incline with
        | (Raise e, db'), _ => (db', Raise e)
        | (Return bathtub_id, db'), Finite degrees_shown =>
            (db',
             Return
               {| name_input := ""; top_length_input := "";
                  bottom_length_input := ""; width_input := "";
                  height_input := ""; liters_input := "";
                  result_display :=
                    (Saved (name_input s) degrees_shown,
                     result_display_class) |})
        | (Return bathtub_id, db'), NaN => (db', Return s)
        end
    | _, _, _, _ =>
        (db, Return (show_error s "Please enter valid numeric values"))
    end.

End DatabaseFailures.

(** ** A reader for decimal literals and [nan]

    [decimal_float] extended by the spellings of [nan] that [float]
    reads: the three letters in any case, with an optional sign and
    surrounding whitespace. *)
Section NanLiteral.
Local Open Scope string_scope.

Definition decimal_or_nan_float (s : string) : string + python_float :=
  let t := map_string sqlite_tolower (numeral_strip s) in
  if String.eqb t "nan" || String.eqb t "+nan" || String.eqb t "-nan"
  then inr NaN
  else
    match decimal_float s with
    | inl e => inl e
    | inr x => inr (Finite x)
    end.

(** The printer of floats is not computed either; see
    [float_repr_placeholder]. *)
Definition python_float_repr_placeholder (f : python_float) : string :=
  "<float>".

(** ** Texts without NUL, and their length in bytes *)

Fixpoint no_nul (s : string) : bool :=
  match s with
  | EmptyString => true
  | String c s' => negb (Ascii.eqb c Ascii.zero) && no_nul s'
  end.

(** The length of the UTF-8 encoding of a text of characters below
    U+0100: one byte below U+0080, two from there on. *)
Fixpoint utf8_length (s : string) : Z :=
  match s with
  | EmptyString => 0
  | String c s' =>
      (if (N_of_ascii c <? 128)%N then 1 else 2) + utf8_length s'
  end%Z.

(** [SQLITE_MAX_LIKE_PATTERN_LENGTH]. *)
Definition like_pattern_limit : Z := 50000.

End NanLiteral.

(* ================================================================= *)
(** * Properties *)

(** ** Python builtins: [int(str(z)) = z] *)

Section PythonTextFacts.
Local Open Scope string_scope.

Lemma digit_not_space (c : ascii) (d : Z) :
  digit_value c = Some d -> py_isspace c = false.
Proof.
  unfold digit_value, py_isspace.
  destruct c as [[|] [|] [|] [|] [|] [|] [|] [|]]; vm_compute; congruence.
Qed.

Lemma digit_not_underscore (c : ascii) (d : Z) :
  digit_value c = Some d -> Ascii.eqb c "_" = false.
Proof.
  unfold digit_value.
  destruct c as [[|] [|] [|] [|] [|] [|] [|] [|]]; vm_compute; congruence.
Qed.

(** The whitespace of a numeral is whitespace of [str.strip], so what
    holds no whitespace is left as it is by [numeral_strip] too. *)
Lemma numeral_isspace_py_isspace (c : ascii) :
  py_isspace c = false -> numeral_isspace c = false.
Proof.
  destruct c as [[|] [|] [|] [|] [|] [|] [|] [|]]; vm_compute; congruence.
Qed.

Lemma numeral_lstrip_no_space (s : string) :
  no_space s = true -> numeral_lstrip s = s.
Proof.
  destruct s as [| c s]; simpl; [reflexivity |].
  intros H. apply andb_prop in H as [Hc _].
  apply negb_true_iff in Hc.
  rewrite (numeral_isspace_py_isspace c Hc). reflexivity.
Qed.

Lemma numeral_rstrip_no_space (s : string) :
  no_space s = true -> numeral_rstrip s = s.
Proof.
  induction s as [| c s IH]; simpl; [reflexivity |].
  intros H. apply andb_prop in H as [Hc Hs].
  apply negb_true_iff in Hc.
  rewrite (IH Hs), (numeral_isspace_py_isspace c Hc).
  destruct s; reflexivity.
Qed.

Lemma numeral_strip_no_space (s : string) :
  no_space s = true -> numeral_strip s = s.
Proof.
  intros H. unfold numeral_strip.
  rewrite (numeral_lstrip_no_space s H). apply numeral_rstrip_no_space.
  exact H.
Qed.

Lemma all_digits_no_space (s : string) : all_digits s = true -> no_space s = true.
Proof.
  induction s as [| c s IH]; simpl; [reflexivity |].
  destruct (digit_value c) as [d |] eqn:Hd; [| discriminate].
  intros H. rewrite (digit_not_space c d Hd). simpl. exact (IH H).
Qed.

Lemma all_digits_string_of_uint (d : Decimal.uint) :
  all_digits (NilEmpty.string_of_uint d) = true.
Proof.
  induction d; simpl; trivial.
Qed.

(** Reading back the digits of a numeral, most significant first. *)
Lemma py_digitpart_string_of_uint (d : Decimal.uint) (acc : Z) :
  py_digitpart (NilEmpty.string_of_uint d) acc true
  = Some (acc * 10 ^ Z.of_N (DecimalPos.Unsigned.usize d)
          + Z.of_N (DecimalPos.Unsigned.of_lu (Decimal.rev d)))%Z.
Proof.
  revert acc.
  induction d; intros acc;
    [ simpl; f_equal; lia | .. ];
    unfold Decimal.rev; cbn [Decimal.revapp];
    rewrite (DecimalPos.Unsigned.of_lu_revapp d);
    fold (Decimal.rev d);
    cbn [NilEmpty.string_of_uint py_digitpart];
    match goal with
    | |- context [digit_value ?c] =>
        change (digit_value c) with (Some (Z.of_N (N_of_ascii c - 48)))
    end;
    cbv beta iota; rewrite IHd; f_equal;
    cbn [DecimalPos.Unsigned.usize];
    rewrite N2Z.inj_add, N2Z.inj_mul, N2Z.inj_pow, N2Z.inj_succ;
    rewrite Z.pow_succ_r by apply N2Z.is_nonneg;
    change (Z.of_N 10) with 10%Z;
    set (P := (10 ^ Z.of_N (DecimalPos.Unsigned.usize d))%Z);
    set (L := Z.of_N (DecimalPos.Unsigned.of_lu (Decimal.rev d)));
    vm_compute (N_of_ascii _ - 48)%N;
    vm_compute (DecimalPos.Unsigned.of_lu _);
    cbn [Z.of_N];
    ring.
Qed.

Lemma py_digitpart_first_digit (c : ascii) (s : string) (acc d : Z) (b : bool) :
  digit_value c = Some d ->
  py_digitpart (String c s) acc b = py_digitpart (String c s) acc true.
Proof.
  intros Hd. simpl. rewrite Hd. reflexivity.
Qed.

Lemma py_digitpart_to_uint (p : positive) :
  py_digitpart (NilEmpty.string_of_uint (Pos.to_uint p)) 0 false
  = Some (Zpos p).
Proof.
  pose proof (DecimalPos.Unsigned.to_uint_nonnil p) as Hnil.
  pose proof (all_digits_string_of_uint (Pos.to_uint p)) as Hall.
  pose proof (py_digitpart_string_of_uint (Pos.to_uint p) 0) as Hval.
  rewrite <- DecimalPos.Unsigned.of_uint_alt in Hval.
  rewrite DecimalPos.Unsigned.of_to in Hval.
  destruct (NilEmpty.string_of_uint (Pos.to_uint p)) as [| c s] eqn:Hs.
  - destruct (Pos.to_uint p); try discriminate Hs. contradiction.
  - simpl in Hall. destruct (digit_value c) as [d |] eqn:Hd; [| discriminate].
    rewrite (py_digitpart_first_digit c s 0 d false Hd).
    rewrite Hval. f_equal.
Qed.

Lemma string_of_uint_nonnil (d : Decimal.uint) :
  d <> Decimal.Nil ->
  NilZero.string_of_uint d = NilEmpty.string_of_uint d.
Proof.
  destruct d; trivial. intros H. contradiction.
Qed.

(** A numeral starts with a digit, so [py_int] takes its last branch. *)
Lemma py_int_digits (c : ascii) (s : string) (d : Z) :
  digit_value c = Some d ->
  all_digits (String c s) = true ->
  py_int (String c s) = py_digitpart (String c s) 0 false.
Proof.
  intros Hd Hall. unfold py_int.
  rewrite (numeral_strip_no_space _ (all_digits_no_space _ Hall)).
  destruct c as [[|] [|] [|] [|] [|] [|] [|] [|]];
    try reflexivity; vm_compute in Hd; discriminate.
Qed.

Lemma py_int_str_of_int (z : Z) : py_int (py_str_of_int z) = Some z.
Proof.
  destruct z as [| p | p]; unfold py_str_of_int; cbn [Z.to_int NilZero.string_of_int].
  - reflexivity.
  - pose proof (DecimalPos.Unsigned.to_uint_nonnil p) as Hnil.
    rewrite (string_of_uint_nonnil _ Hnil).
    pose proof (all_digits_string_of_uint (Pos.to_uint p)) as Hall.
    pose proof (py_digitpart_to_uint p) as Hval.
    destruct (NilEmpty.string_of_uint (Pos.to_uint p)) as [| c s] eqn:Hs.
    + destruct (Pos.to_uint p); try discriminate Hs. contradiction.
    + assert (Hd : exists d, digit_value c = Some d).
      { simpl in Hall. destruct (digit_value c) as [d |]; [eauto | discriminate]. }
      destruct Hd as [d Hd].
      rewrite (py_int_digits c s d Hd Hall). exact Hval.
  - pose proof (DecimalPos.Unsigned.to_uint_nonnil p) as Hnil.
    rewrite (string_of_uint_nonnil _ Hnil).
    pose proof (all_digits_string_of_uint (Pos.to_uint p)) as Hall.
    pose proof (py_digitpart_to_uint p) as Hval.
    unfold py_int.
    rewrite numeral_strip_no_space
      by (simpl; apply all_digits_no_space; exact Hall).
    rewrite Hval. reflexivity.
Qed.

End PythonTextFacts.

(** ** Record store *)

Section StoreFacts.
Local Open Scope Z_scope.

Lemma max_rowid_ge (rows : list bathtub) (r : bathtub) :
  In r rows -> id r <= max_rowid rows.
Proof.
  induction rows as [| r' rows IH]; simpl; [contradiction |].
  intros [-> | Hin]; [lia |].
  specialize (IH Hin). lia.
Qed.

Lemma next_rowid_fresh (db : database) (r : bathtub) :
  In r (bathtubs db) -> id r < next_rowid db.
Proof.
  intros Hin. apply max_rowid_ge in Hin. unfold next_rowid. lia.
Qed.

Lemma filter_none {A : Type} (f : A -> bool) (l : list A) :
  (forall x, In x l -> f x = false) -> filter f l = [].
Proof.
  induction l as [| a l IH]; simpl; intros H; [reflexivity |].
  rewrite (H a) by (left; reflexivity).
  apply IH. intros x Hx. apply H. right. exact Hx.
Qed.

Lemma no_row_with_next_rowid (db : database) :
  filter (fun r => id r =? next_rowid db) (bathtubs db) = [].
Proof.
  apply filter_none. intros r Hin.
  apply next_rowid_fresh in Hin. apply Z.eqb_neq. lia.
Qed.

(** Searching by id is the [WHERE id = ?] filter on the table. *)
Lemma search_entries_by_id (db : database) (entry_id : Z) :
  search_entries db (Some (py_str_of_int entry_id)) true
  = filter (fun r => id r =? entry_id) (bathtubs db).
Proof.
  unfold search_entries. rewrite py_int_str_of_int. reflexivity.
Qed.

Lemma get_entry_by_id_filter (db : database) (entry_id : Z) :
  get_entry_by_id db entry_id
  = hd_error (filter (fun r => id r =? entry_id) (bathtubs db)).
Proof.
  unfold get_entry_by_id. rewrite search_entries_by_id.
  destruct (filter _ _); reflexivity.
Qed.

Lemma get_entry_by_id_none (db : database) (entry_id : Z) :
  get_entry_by_id db entry_id = None
  <-> filter (fun r => id r =? entry_id) (bathtubs db) = [].
Proof.
  rewrite get_entry_by_id_filter.
  destruct (filter _ _); simpl; split; congruence.
Qed.

Lemma get_entry_by_id_some (db : database) (entry_id : Z) (r : bathtub) :
  get_entry_by_id db entry_id = Some r ->
  In r (bathtubs db) /\ id r = entry_id.
Proof.
  rewrite get_entry_by_id_filter.
  destruct (filter _ _) as [| r' l] eqn:Hf; simpl; [discriminate |].
  intros [= ->].
  assert (Hin : In r (filter (fun r => id r =? entry_id) (bathtubs db)))
    by (rewrite Hf; left; reflexivity).
  apply filter_In in Hin as [Hin Heq]. apply Z.eqb_eq in Heq. auto.
Qed.

End StoreFacts.

(** C3. A record inserted with [add_bathtub] and fetched by the
    identifier the insert returned comes back as exactly one record
    whose name, four measurements, incline and liters are the inserted
    values; when the inserted incline is [calculate_incline] of the
    lengths and height, so is the fetched one. *)
Theorem add_bathtub_get_entry_by_id
    (now : string) (db : database) (name0 : string)
    (top bottom width0 height0 side_incline : R) (liters0 : string) :
  let inserted :=
    add_bathtub now db name0 top bottom width0 height0 side_incline liters0 in
  exists entry : bathtub,
    search_entries (snd inserted) (Some (py_str_of_int (fst inserted))) true
      = [entry]
    /\ get_entry_by_id (snd inserted) (fst inserted) = Some entry
    /\ id entry = fst inserted
    /\ name entry = name0
    /\ top_length entry = top
    /\ bottom_length entry = bottom
    /\ width entry = width0
    /\ height entry = height0
    /\ side_incline_degrees entry = side_incline
    /\ liters entry = liters0
    /\ (side_incline = calculate_incline top bottom height0 ->
        side_incline_degrees entry = calculate_incline top bottom height0).
Proof.
  intros inserted.
  assert (Hsearch :
    search_entries (snd inserted) (Some (py_str_of_int (fst inserted))) true
    = [Bathtub (next_rowid db) name0 top bottom width0 height0
               side_incline liters0 now]).
  { rewrite search_entries_by_id. subst inserted.
    cbn [add_bathtub fst snd bathtubs].
    rewrite filter_app, no_row_with_next_rowid.
    cbn [filter id app]. rewrite Z.eqb_refl. reflexivity. }
  eexists. split; [exact Hsearch |].
  split.
  - unfold get_entry_by_id. rewrite Hsearch. reflexivity.
  - cbn. repeat split; trivial.
Qed.

Lemma add_bathtub_get_entry_by_id_witness :
  exists entry : bathtub,
    get_entry_by_id
      (snd (add_bathtub "2024-05-01 09:30:00" empty_database "Classic"
              150 120 70 45 (calculate_incline 150 120 45) "180"))
      1 = Some entry
    /\ name entry = "Classic"%string
    /\ liters entry = "180"%string
    /\ side_incline_degrees entry = calculate_incline 150 120 45.
Proof.
  destruct (add_bathtub_get_entry_by_id "2024-05-01 09:30:00" empty_database
              "Classic" 150 120 70 45 (calculate_incline 150 120 45) "180")
    as (entry & _ & Hget & _ & Hname & _ & _ & _ & _ & _ & Hliters & Hincline).
  exists entry. split; [exact Hget |].
  split; [exact Hname |]. split; [exact Hliters |].
  apply Hincline. reflexivity.
Defined.

(** ** Record editor: [update_field] *)

Section ManagerFacts.
Local Open Scope string_scope.
Local Open Scope Z_scope.

Variable float_of_string : string -> string + R.
Variable float_repr : R -> string.

(** Decide the comparisons of a variable field name with the literals
    of [FIELDS] and of the column list, one after the other. *)
Ltac split_field_name field :=
  repeat match goal with
         | |- context [String.eqb ?lit field] =>
             destruct (String.eqb_spec lit field) as [<- | ?]
         end.

(** The keys of [FIELDS] are the columns of the table except [id]. *)
Lemma dict_get_FIELDS_none (field : string) :
  dict_get FIELDS field = None <-> is_column field = false \/ field = "id".
Proof.
  unfold is_column, bathtubs_columns, FIELDS.
  cbn [existsb dict_get fst].
  destruct (String.eqb_spec "id" field) as [<- | Hid].
  - cbn. split; [right; reflexivity | reflexivity].
  - split_field_name field; cbn;
      (split; [ first [ discriminate | intros _; left; reflexivity ]
              | intros [Hc | Hc]; first [ discriminate | congruence | reflexivity ] ]).
Qed.

Lemma set_column_id (field : string) (v : sql_value) (r : bathtub) :
  id (set_column field v r) = id r.
Proof.
  unfold set_column. destruct v;
    repeat match goal with
           | |- context [String.eqb field ?lit] => destruct (String.eqb field lit)
           end; reflexivity.
Qed.

Lemma filter_update_rows (field : string) (v : sql_value) (entry_id : Z)
    (rows : list bathtub) :
  filter (fun r => id r =? entry_id)
         (map (fun r => if id r =? entry_id then set_column field v r else r) rows)
  = map (set_column field v) (filter (fun r => id r =? entry_id) rows).
Proof.
  induction rows as [| r rows IH]; [reflexivity |].
  cbn [map filter].
  destruct (id r =? entry_id) eqn:Hr.
  - rewrite set_column_id, Hr. cbn [map]. rewrite IH. reflexivity.
  - rewrite Hr. exact IH.
Qed.



(** An [UPDATE] addressed to a present id reports at least one row and
    rewrites the row that [get_entry_by_id] returns. *)
Lemma execute_update_hit (db : database) (field : string) (v : sql_value)
    (entry_id : Z) (r : bathtub) :
  get_entry_by_id db entry_id = Some r ->
  0 < fst (execute_update db field v entry_id)
  /\ get_entry_by_id (snd (execute_update db field v entry_id)) entry_id
     = Some (set_column field v r).
Proof.
  rewrite !get_entry_by_id_filter.
  unfold execute_update. cbn [fst snd bathtubs].
  rewrite filter_update_rows.
  destruct (filter _ (bathtubs db)) as [| r' l]; cbn; [discriminate |].
  intros [= ->]. split; [lia | reflexivity].
Qed.

(** [update_field] once the field and the value have passed the checks. *)
Lemma update_field_checked (db : database) (entry_id : Z) (field : string)
    (new_value : py_value) (info : field_info) (v : sql_value) :
  dict_get FIELDS field = Some info ->
  get_readonly info = false ->
  convert_value float_of_string float_repr (type info) new_value = inr v ->
  update_field float_of_string float_repr db entry_id field new_value
  = (Return (0 <? fst (execute_update db field v entry_id)),
     snd (execute_update db field v entry_id)).
Proof.
  intros Hget Hro Hconv. unfold update_field.
  rewrite Hget, Hro, Hconv.
  destruct (execute_update db field v entry_id). reflexivity.
Qed.

(** The fields that [FIELDS] declares with type [float]. *)
Lemma numeric_field_info (field : string) :
  In field ["top_length"; "bottom_length"; "width"; "height";
            "side_incline_degrees"] ->
  exists info, dict_get FIELDS field = Some info
               /\ get_readonly info = false /\ type info = py_float.
Proof.
  cbn [In]. intros H.
  repeat (destruct H as [<- | H]; [eexists; cbn; repeat split |]).
  contradiction.
Qed.

(** The fields that [FIELDS] declares with type [str] and lets edit. *)
Lemma text_field_info (field : string) :
  In field ["name"; "liters"] ->
  exists info, dict_get FIELDS field = Some info
               /\ get_readonly info = false /\ type info = py_str.
Proof.
  cbn [In]. intros H.
  repeat (destruct H as [<- | H]; [eexists; cbn; repeat split |]).
  contradiction.
Qed.

(** C4. Whatever the identifier and the new value, [update_field] on
    [created_at] raises the read-only error, and the database, hence the
    addressed row if there is one, stays as it was. *)
Theorem update_field_created_at_read_only
    (db : database) (entry_id : Z) (new_value : py_value) :
  update_field float_of_string float_repr db entry_id "created_at" new_value
  = (Raise (ReadOnlyFieldError "created_at"), db)
  /\ get_entry_by_id
       (snd (update_field float_of_string float_repr db entry_id
                          "created_at" new_value)) entry_id
     = get_entry_by_id db entry_id.
Proof.
  split; reflexivity.
Qed.

(** C7. For an existing record and a text that [float] reads as [x],
    [update_field] on [side_incline_degrees] raises nothing, returns
    [True] and stores [x] as the incline of the record, whatever its
    lengths and height are; the other fields keep their values. *)
Theorem update_field_overwrites_incline
    (db : database) (entry_id : Z) (entry : bathtub) (s : string) (x : R) :
  get_entry_by_id db entry_id = Some entry ->
  float_of_string s = inr x ->
  let updated :=
    update_field float_of_string float_repr db entry_id
                 "side_incline_degrees" (PyStr s) in
  fst updated = Return true
  /\ get_entry_by_id (snd updated) entry_id
     = Some (Bathtub (id entry) (name entry) (top_length entry)
                     (bottom_length entry) (width entry) (height entry)
                     x (liters entry) (created_at entry)).
Proof.
  intros Hentry Hfloat updated. subst updated.
  unfold update_field. cbn [dict_get FIELDS String.eqb Ascii.eqb Bool.eqb].
  cbn [get_readonly readonly type convert_value]. rewrite Hfloat.
  destruct (execute_update_hit db "side_incline_degrees" (SqlReal x)
              entry_id entry Hentry) as [Hcount Hget].
  destruct (execute_update db "side_incline_degrees" (SqlReal x) entry_id)
    as [rowcount db'] eqn:Hexec.
  cbn [fst snd] in *. split.
  - f_equal. apply Z.ltb_lt. exact Hcount.
  - rewrite Hget. reflexivity.
Qed.

(** C8, as the code has it.  [update_field] raises the unknown-field
    error exactly when the field name is not a key of [FIELDS]: when it
    is not a column of the table, or is the column [id], which [FIELDS]
    leaves out.  The error is never raised for one of the other eight
    columns. *)
Theorem update_field_unknown_field
    (db : database) (entry_id : Z) (field : string) (new_value : py_value) :
  fst (update_field float_of_string float_repr db entry_id field new_value)
  = Raise (UnknownFieldError field)
  <-> is_column field = false \/ field = "id".
Proof.
  rewrite <- dict_get_FIELDS_none. unfold update_field.
  destruct (dict_get FIELDS field) as [info |]; cbn [fst].
  - split; [| discriminate].
    destruct (get_readonly info); cbn [fst].
    + unfold ReadOnlyFieldError, UnknownFieldError. cbn [append].
      discriminate.
    + destruct (convert_value _ _ _ _) as [e | v]; cbn [fst].
      * unfold InvalidValueError, UnknownFieldError. cbn [append].
        discriminate.
      * destruct (execute_update _ _ _ _). cbn [fst]. discriminate.
  - split; reflexivity.
Qed.

End ManagerFacts.

(** ** The editor on concrete records *)

Section ManagerExamples.
Local Open Scope string_scope.
Local Open Scope Z_scope.

Lemma update_field_overwrites_incline_witness :
  fst (update_field decimal_float float_repr_placeholder classic_db 1
                    "side_incline_degrees" (PyStr "45"))
  = Return true
  /\ get_entry_by_id
       (snd (update_field decimal_float float_repr_placeholder classic_db 1
                          "side_incline_degrees" (PyStr "45"))) 1
     = Some (Bathtub 1 "Classic" 150 120 70 45 45 "180"
                     "2024-05-01 09:30:00").
Proof.
  apply (update_field_overwrites_incline decimal_float float_repr_placeholder
           classic_db 1
           (Bathtub 1 "Classic" 150 120 70 45 (calculate_incline 150 120 45)
                    "180" "2024-05-01 09:30:00")
           "45" 45%R); reflexivity.
Defined.

(** C8, counterexample to the claim as stated: [id] is a column of the
    table, and [update_field] rejects it as an unknown field. *)
Lemma update_field_id_unknown :
  is_column "id" = true
  /\ update_field decimal_float float_repr_placeholder classic_db 1 "id"
                  (PyStr "7")
     = (Raise (UnknownFieldError "id"), classic_db).
Proof.
  split; reflexivity.
Qed.

Lemma update_field_unknown_field_witness :
  (is_column "colour" = false \/ "colour" = "id")
  /\ fst (update_field decimal_float float_repr_placeholder classic_db 1
                       "colour" (PyStr "white"))
     = Raise (UnknownFieldError "colour").
Proof.
  assert (H : is_column "colour" = false \/ "colour" = "id")
    by (left; reflexivity).
  split; [exact H |].
  apply (proj2 (update_field_unknown_field decimal_float
                  float_repr_placeholder classic_db 1 "colour"
                  (PyStr "white")) H).
Defined.

End ManagerExamples.

(** ** Search by name *)

Section SearchFacts.
Local Open Scope string_scope.

(** One step of the [%] wildcard: it matches the empty run, or it
    swallows a character and goes on. *)
Lemma patternCompare_percent (pattern text : string) :
  patternCompare (String "%" pattern) text
  = patternCompare pattern text
    || match text with
       | EmptyString => false
       | String _ text' => patternCompare (String "%" pattern) text'
       end.
Proof.
  destruct text; reflexivity.
Qed.

Lemma patternCompare_char (p : ascii) (pattern : string) (c : ascii)
    (text : string) :
  Ascii.eqb p "%" = false ->
  patternCompare (String p pattern) (String c text)
  = (Ascii.eqb p "_" || Ascii.eqb (sqlite_tolower p) (sqlite_tolower c))
    && patternCompare pattern text.
Proof.
  intros Hp. cbn [patternCompare]. rewrite Hp. reflexivity.
Qed.

(** A lone [%] matches every text. *)
Lemma patternCompare_percent_all (text : string) :
  patternCompare "%" text = true.
Proof.
  induction text as [| c text IH]; rewrite patternCompare_percent.
  - reflexivity.
  - rewrite IH. apply orb_true_r.
Qed.

(** A leading [%] may skip any prefix of the text. *)
Lemma patternCompare_percent_skip (pattern before text : string) :
  patternCompare (String "%" pattern) text = true ->
  patternCompare (String "%" pattern) (before ++ text) = true.
Proof.
  intros H. induction before as [| c before IH]; [exact H |].
  cbn [append]. rewrite patternCompare_percent, IH. apply orb_true_r.
Qed.

(** A text without NUL is the C string read from it. *)
Lemma c_string_no_nul (s : string) : no_nul s = true -> c_string s = s.
Proof.
  induction s as [| c s IH]; cbn [no_nul c_string]; [reflexivity |].
  intros H. apply andb_prop in H as [Hc Hs].
  apply negb_true_iff in Hc. rewrite Hc, (IH Hs). reflexivity.
Qed.

Lemma no_nul_app (s t : string) :
  no_nul (s ++ t) = no_nul s && no_nul t.
Proof.
  induction s as [| c s IH]; cbn [append no_nul]; [reflexivity |].
  rewrite IH. apply andb_assoc.
Qed.

(** The pattern [%text%] on texts without NUL. *)
Lemma sql_like_no_nul (text name0 : string) :
  no_nul text = true -> no_nul name0 = true ->
  sql_like ("%" ++ text ++ "%") name0
  = patternCompare ("%" ++ text ++ "%") name0.
Proof.
  intros Htext Hname. unfold sql_like.
  rewrite (c_string_no_nul name0 Hname).
  rewrite c_string_no_nul; [reflexivity |].
  rewrite !no_nul_app, Htext. reflexivity.
Qed.

Lemma insert_by_name_In (r r0 : bathtub) (rows : list bathtub) :
  In r (insert_by_name r0 rows) <-> r = r0 \/ In r rows.
Proof.
  induction rows as [| r' rows IH]; cbn [insert_by_name].
  - cbn. intuition congruence.
  - destruct (String.leb (name r0) (name r')); cbn [In] in *.
    + intuition congruence.
    + rewrite IH. intuition congruence.
Qed.

(** [ORDER BY name] rearranges the rows and loses none. *)
Lemma order_by_name_In (r : bathtub) (rows : list bathtub) :
  In r (order_by_name rows) <-> In r rows.
Proof.
  induction rows as [| r0 rows IH]; cbn [order_by_name fold_right].
  - reflexivity.
  - fold (order_by_name rows). rewrite insert_by_name_In, IH.
    cbn [In]. intuition congruence.
Qed.

(** What a search by name returns: the rows whose name the pattern
    matches. *)
Lemma search_entries_by_name (db : database) (term : string) (r : bathtub) :
  In r (search_entries db (Some term) false)
  <-> In r (bathtubs db) /\ sql_like ("%" ++ term ++ "%") (name r) = true.
Proof.
  unfold search_entries. rewrite order_by_name_In, filter_In. reflexivity.
Qed.

End SearchFacts.

Section SearchClaims.
Local Open Scope string_scope.

(** C10, the code at the failing input.  The comment above the query
    announces a search by name that is case-insensitive.  The name
    "Ecole" written with a capital E acute (U+00C9) contains the search
    text "ecole" written with a small e acute (U+00E9) up to letter
    case, and the search does not return the record: [LIKE] folds the
    case of the ASCII letters only. *)
Lemma search_entries_misses_accented_capital :
  let name0 := String "201" "cole" in
  let term := String "233" "cole" in
  let r := Bathtub 1 name0 150 120 70 45 0 "N/A" "2024-05-01 09:30:00" in
  let db := Database [r] 1 in
  In r (bathtubs db)
  /\ contains_up_to py_lower_char term (name r)
  /\ ~ In r (search_entries db (Some term) false).
Proof.
  cbv zeta. split; [left; reflexivity |]. split.
  - exists "", (String "201" "cole"), "". split; reflexivity.
  - intros H. apply search_entries_by_name in H as [_ H].
    vm_compute in H. discriminate.
Qed.

End SearchClaims.

(** ** The interactive form: [save_bathtub] *)

Section FormFacts.
Local Open Scope string_scope.

Variable float_of_string : string -> string + R.

(** A blank name stops the save before the database is touched. *)
Lemma save_bathtub_blank_name (now : string) (db : database) (s : screen) :
  name_input s = "" ->
  save_bathtub float_of_string now db s
  = (db, show_error s "Please enter a name").
Proof.
  intros Hname. unfold save_bathtub. rewrite Hname. reflexivity.
Qed.

(** So does a measurement that [float] rejects. *)
Lemma save_bathtub_not_numeric (now : string) (db : database) (s : screen) :
  (exists e, float_of_string (top_length_input s) = inl e
             \/ float_of_string (bottom_length_input s) = inl e
             \/ float_of_string (width_input s) = inl e
             \/ float_of_string (height_input s) = inl e) ->
  fst (save_bathtub float_of_string now db s) = db.
Proof.
  intros [e H]. unfold save_bathtub.
  destruct (py_truthy (name_input s)); cbn [negb]; [| reflexivity].
  destruct (float_of_string (top_length_input s)),
           (float_of_string (bottom_length_input s)),
           (float_of_string (width_input s)),
           (float_of_string (height_input s));
    try reflexivity.
  destruct H as [H | [H | [H | H]]]; discriminate.
Qed.

(** With a name and four texts that [float] reads, the record is
    inserted, whatever the sign of the numbers. *)
Lemma save_bathtub_inserts (now : string) (db : database) (s : screen)
    (top bottom width0 height0 : R) :
  name_input s <> "" ->
  float_of_string (top_length_input s) = inr top ->
  float_of_string (bottom_length_input s) = inr bottom ->
  float_of_string (width_input s) = inr width0 ->
  float_of_string (height_input s) = inr height0 ->
  fst (save_bathtub float_of_string now db s)
  = snd (add_bathtub now db (name_input s) top bottom width0 height0
           (calculate_incline top bottom height0)
           (if py_truthy (py_strip (liters_input s))
            then py_strip (liters_input s) else "N/A")).
Proof.
  intros Hname Htop Hbottom Hwidth Hheight. unfold save_bathtub.
  destruct (name_input s) as [| c n] eqn:Hn; [congruence |].
  cbn [py_truthy negb]. rewrite Htop, Hbottom, Hwidth, Hheight.
  reflexivity.
Qed.

End FormFacts.

Section FormClaims.
Local Open Scope string_scope.

(** C6, the code at the failing input.  With the name "Tub" and the top
    length "-5" the validator of the top length input marks the text
    invalid, and [save_bathtub] still inserts the record, with a
    negative top length. *)
Theorem save_bathtub_inserts_negative_length :
  let s := Screen "Tub" "-5" "120" "70" "45" ""
                  (Plain "", result_display_class) in
  let saved :=
    save_bathtub decimal_float "2024-05-01 09:30:00" empty_database s in
  Number decimal_float 0 (top_length_input s) = false
  /\ measurements_valid decimal_float s = false
  /\ bathtubs (fst saved)
     = [Bathtub 1 "Tub" (-5) 120 70 45 (calculate_incline (-5) 120 45)
                "N/A" "2024-05-01 09:30:00"]
  /\ result_display (snd saved)
     = (Saved "Tub" (calculate_incline (-5) 120 45), result_display_class).
Proof.
  cbv zeta.
  assert (Hinvalid : Number decimal_float 0 "-5" = false).
  { unfold Number.
    change (decimal_float "-5") with (@inr string R (- 5)%R).
    cbv beta iota.
    match goal with
    | |- context [Rle_dec ?a ?b] => destruct (Rle_dec a b) as [Hle | _]
    end; [lra | reflexivity]. }
  split; [exact Hinvalid |]. split.
  - unfold measurements_valid. cbn [top_length_input].
    rewrite Hinvalid. reflexivity.
  - split; reflexivity.
Qed.

End FormClaims.

(** ** The definitions on sample inputs *)

Section Samples.
Local Open Scope string_scope.
Local Open Scope Z_scope.

Example py_int_samples :
  py_int "12" = Some 12 /\ py_int " -7 " = Some (-7)
  /\ py_int "+1_000" = Some 1000 /\ py_int "007" = Some 7
  /\ py_int "" = None /\ py_int "-" = None /\ py_int "1__0" = None
  /\ py_int "1_" = None /\ py_int "abc" = None.
Proof. repeat split; reflexivity. Qed.

Example py_str_of_int_samples :
  py_str_of_int 0 = "0" /\ py_str_of_int 15 = "15"
  /\ py_str_of_int (-120) = "-120".
Proof. repeat split; reflexivity. Qed.

Example py_strip_samples :
  py_strip "  a b  " = "a b" /\ py_strip "   " = "" /\ py_strip "" = "".
Proof. repeat split; reflexivity. Qed.

Example sql_like_samples :
  sql_like "%polyp%" "Polypex" = true
  /\ sql_like "%POLYP%" "polypex" = true
  /\ sql_like "%_%" "" = false
  /\ sql_like "%a_c%" "xxabcxx" = true
  /\ sql_like "%tub%" "Classic" = false.
Proof. repeat split; reflexivity. Qed.

Example order_by_name_sample :
  map name
      (order_by_name [Bathtub 1 "b" 0 0 0 0 0 "" ""; Bathtub 2 "a" 0 0 0 0 0 "" "";
                      Bathtub 3 "B" 0 0 0 0 0 "" ""])
  = ["B"; "a"; "b"].
Proof. reflexivity. Qed.

Example decimal_float_samples :
  decimal_float "150" = inr 150%R
  /\ decimal_float "-5" = inr (- 5)%R
  /\ decimal_float " 45 " = inr 45%R
  /\ decimal_float "1.5" = inr (15 / 10)%R
  /\ decimal_float "" = inl "could not convert string to float: ''"
  /\ decimal_float "wide" = inl "could not convert string to float: 'wide'".
Proof. repeat split; reflexivity. Qed.

(** The scenario of the specification: the record "Classic" has the
    identifier 1 and is found again under it. *)
Example classic_db_sample :
  get_entry_by_id classic_db 1
  = Some (Bathtub 1 "Classic" 150 120 70 45 (calculate_incline 150 120 45)
                  "180" "2024-05-01 09:30:00")
  /\ get_entry_by_id classic_db 999 = None.
Proof. split; reflexivity. Qed.

End Samples.

(* ================================================================= *)
(** * Further properties of the code *)

(** ** Incline calculator *)

Section InclineGeometry.
Local Open Scope R_scope.

(** Swapping the top and the bottom length leaves the incline as it is:
    only the size of the difference enters the computation. *)
Theorem calculate_incline_symmetric (top_length bottom_length height : R) :
  calculate_incline top_length bottom_length height
  = calculate_incline bottom_length top_length height.
Proof.
  unfold calculate_incline.
  destruct (Req_dec_T height 0); [reflexivity |].
  rewrite (Rabs_minus_sym top_length bottom_length). reflexivity.
Qed.

End InclineGeometry.

(** ** Record store: keys, deletion, listings *)

Section MoreStoreFacts.
Local Open Scope string_scope.
Local Open Scope Z_scope.

Lemma filter_all {A : Type} (f : A -> bool) (l : list A) :
  (forall x, In x l -> f x = true) -> filter f l = l.
Proof.
  induction l as [| a l IH]; cbn [filter]; intros H; [reflexivity |].
  rewrite (H a) by (left; reflexivity).
  rewrite IH; [reflexivity |]. intros x Hx. apply H. right. exact Hx.
Qed.

Lemma NoDup_map_filter {A B : Type} (g : A -> B) (f : A -> bool) (l : list A) :
  NoDup (map g l) -> NoDup (map g (filter f l)).
Proof.
  induction l as [| a l IH]; cbn [map filter]; intros H; [exact H |].
  inversion H as [| x xs Hnotin Hnodup]; subst.
  destruct (f a); cbn [map]; [| exact (IH Hnodup)].
  constructor; [| exact (IH Hnodup)].
  intros Hin. apply Hnotin.
  apply in_map_iff in Hin as (y & Hy & Hin).
  apply filter_In in Hin as [Hin _].
  apply in_map_iff. exists y. auto.
Qed.

Lemma map_id_update_rows (field : string) (v : sql_value) (entry_id : Z)
    (rows : list bathtub) :
  map id (map (fun r => if id r =? entry_id then set_column field v r else r)
              rows)
  = map id rows.
Proof.
  induction rows as [| r rows IH]; [reflexivity |].
  cbn [map]. rewrite IH. f_equal.
  destruct (id r =? entry_id); [apply set_column_id | reflexivity].
Qed.

Lemma fresh_id_not_in (db : database) :
  ~ In (next_rowid db) (map id (bathtubs db)).
Proof.
  intros Hin. apply in_map_iff in Hin as (r & Hr & Hin).
  apply next_rowid_fresh in Hin. lia.
Qed.

Lemma unique_ids_add (now : string) (db : database) (name0 : string)
    (top bottom width0 height0 side_incline : R) (liters0 : string) :
  unique_ids db ->
  unique_ids (snd (add_bathtub now db name0 top bottom width0 height0
                     side_incline liters0)).
Proof.
  unfold unique_ids. cbn [add_bathtub snd bathtubs]. intros Hdb.
  rewrite map_app. cbn [map id].
  apply (Permutation_NoDup (Permutation_cons_append _ _)).
  constructor; [apply fresh_id_not_in | exact Hdb].
Qed.

Lemma unique_ids_execute_update (db : database) (field : string)
    (v : sql_value) (entry_id : Z) :
  unique_ids db -> unique_ids (snd (execute_update db field v entry_id)).
Proof.
  unfold unique_ids. cbn [execute_update snd bathtubs].
  rewrite map_id_update_rows. trivial.
Qed.

(** With unique ids the [WHERE id = ?] filter keeps the one row that
    carries the id. *)
Lemma filter_id_unique (rows : list bathtub) (r : bathtub) :
  NoDup (map id rows) -> In r rows ->
  filter (fun r' => id r' =? id r) rows = [r].
Proof.
  induction rows as [| r0 rows IH]; cbn [map filter In]; intros Hnd Hin;
    [contradiction |].
  inversion Hnd as [| x xs Hnotin Hnodup]; subst.
  destruct Hin as [-> | Hin].
  - rewrite Z.eqb_refl. f_equal.
    apply filter_none. intros r' Hr'. apply Z.eqb_neq. intros Heq.
    apply Hnotin. rewrite <- Heq. apply in_map. exact Hr'.
  - destruct (id r0 =? id r) eqn:Heq; [| exact (IH Hnodup Hin)].
    apply Z.eqb_eq in Heq. exfalso. apply Hnotin.
    rewrite Heq. apply in_map. exact Hin.
Qed.

Lemma get_entry_by_id_other_filter (rows rows' : list bathtub) (i : Z)
    (sequence sequence' : Z) :
  filter (fun r => id r =? i) rows' = filter (fun r => id r =? i) rows ->
  get_entry_by_id (Database rows' sequence') i
  = get_entry_by_id (Database rows sequence) i.
Proof.
  intros H. rewrite !get_entry_by_id_filter. cbn [bathtubs]. rewrite H.
  reflexivity.
Qed.

Lemma filter_filter_other (rows : list bathtub) (i j : Z) :
  i <> j ->
  filter (fun r => id r =? j)
         (filter (fun r => negb (id r =? i)) rows)
  = filter (fun r => id r =? j) rows.
Proof.
  intros Hij. induction rows as [| r rows IH]; [reflexivity |].
  cbn [filter].
  destruct (id r =? i) eqn:Hi; cbn [negb filter].
  - apply Z.eqb_eq in Hi.
    destruct (id r =? j) eqn:Hj; [apply Z.eqb_eq in Hj; lia | exact IH].
  - destruct (id r =? j); [f_equal |]; exact IH.
Qed.

Lemma filter_update_other (field : string) (v : sql_value) (i j : Z)
    (rows : list bathtub) :
  i <> j ->
  filter (fun r => id r =? j)
         (map (fun r => if id r =? i then set_column field v r else r) rows)
  = filter (fun r => id r =? j) rows.
Proof.
  intros Hij. induction rows as [| r rows IH]; [reflexivity |].
  cbn [map filter].
  destruct (id r =? i) eqn:Hi.
  - rewrite set_column_id. apply Z.eqb_eq in Hi.
    destruct (id r =? j) eqn:Hj; [apply Z.eqb_eq in Hj; lia | exact IH].
  - destruct (id r =? j); [f_equal |]; exact IH.
Qed.

End MoreStoreFacts.

Section MoreStoreTheorems.
Local Open Scope string_scope.
Local Open Scope Z_scope.

(** The primary key is kept: when no two records share an id, none do
    after an insert, a delete, an update of a field or a save from the
    form. *)
Theorem unique_ids_preserved (db : database) :
  unique_ids db ->
  (forall now name0 top bottom width0 height0 side_incline liters0,
     unique_ids (snd (add_bathtub now db name0 top bottom width0 height0
                        side_incline liters0)))
  /\ (forall bathtub_id, unique_ids (snd (delete_bathtub db bathtub_id)))
  /\ (forall float_of_string float_repr entry_id field new_value,
        unique_ids (snd (update_field float_of_string float_repr db
                           entry_id field new_value)))
  /\ (forall float_of_string now s,
        unique_ids (fst (save_bathtub float_of_string now db s))).
Proof.
  intros Hdb. repeat split.
  - intros. apply unique_ids_add. exact Hdb.
  - intros bathtub_id. unfold unique_ids.
    cbn [delete_bathtub snd bathtubs]. apply NoDup_map_filter. exact Hdb.
  - intros fos fr entry_id field new_value. unfold update_field.
    destruct (dict_get FIELDS field) as [info |]; [| exact Hdb].
    destruct (get_readonly info); [exact Hdb |].
    destruct (convert_value fos fr (type info) new_value) as [e | v];
      [exact Hdb |].
    pose proof (unique_ids_execute_update db field v entry_id Hdb) as H.
    destruct (execute_update db field v entry_id). exact H.
  - intros fos now s. unfold save_bathtub.
    destruct (negb (py_truthy (name_input s))); [exact Hdb |].
    destruct (fos (top_length_input s)), (fos (bottom_length_input s)),
             (fos (width_input s)), (fos (height_input s));
      try exact Hdb.
    cbn [fst]. apply unique_ids_add. exact Hdb.
Qed.

Lemma unique_ids_preserved_witness :
  unique_ids empty_database /\ unique_ids classic_db
  /\ unique_ids (snd (delete_bathtub classic_db 1)).
Proof.
  assert (H0 : unique_ids empty_database) by constructor.
  assert (H1 : unique_ids classic_db).
  { apply (proj1 (unique_ids_preserved empty_database H0)). }
  split; [exact H0 |]. split; [exact H1 |].
  apply (proj1 (proj2 (unique_ids_preserved classic_db H1))).
Defined.

(** With unique ids every stored record is found under its own id, and
    the search by id returns it alone. *)
Theorem get_entry_by_id_stored (db : database) (r : bathtub) :
  unique_ids db ->
  In r (bathtubs db) ->
  search_entries db (Some (py_str_of_int (id r))) true = [r]
  /\ get_entry_by_id db (id r) = Some r.
Proof.
  intros Hdb Hin.
  pose proof (filter_id_unique (bathtubs db) r Hdb Hin) as Hf.
  split.
  - rewrite search_entries_by_id. exact Hf.
  - rewrite get_entry_by_id_filter, Hf. reflexivity.
Qed.

Lemma get_entry_by_id_stored_witness :
  let r := Bathtub 1 "Classic" 150 120 70 45 (calculate_incline 150 120 45)
                   "180" "2024-05-01 09:30:00" in
  (unique_ids classic_db /\ In r (bathtubs classic_db))
  /\ get_entry_by_id classic_db 1 = Some r.
Proof.
  cbv zeta.
  assert (Hu : unique_ids classic_db).
  { constructor; [intros [] | constructor]. }
  assert (Hin : In (Bathtub 1 "Classic" 150 120 70 45
                            (calculate_incline 150 120 45)
                            "180" "2024-05-01 09:30:00")
                   (bathtubs classic_db)) by (left; reflexivity).
  split; [split; assumption |].
  exact (proj2 (get_entry_by_id_stored classic_db _ Hu Hin)).
Defined.

(** An insert leaves the records that were there as they are: each is
    still found under its id, and the table has one row more. *)
Theorem add_bathtub_keeps_records
    (now : string) (db : database) (name0 : string)
    (top bottom width0 height0 side_incline : R) (liters0 : string)
    (entry_id : Z) (entry : bathtub) :
  get_entry_by_id db entry_id = Some entry ->
  let inserted :=
    add_bathtub now db name0 top bottom width0 height0 side_incline liters0 in
  get_entry_by_id (snd inserted) entry_id = Some entry
  /\ entry_id < fst inserted
  /\ List.length (bathtubs (snd inserted)) = S (List.length (bathtubs db)).
Proof.
  intros Hentry inserted. subst inserted.
  destruct (get_entry_by_id_some db entry_id entry Hentry) as [Hin Hid].
  pose proof (next_rowid_fresh db entry Hin) as Hfresh.
  cbn [add_bathtub fst snd bathtubs]. split; [| split].
  - rewrite get_entry_by_id_filter in *. cbn [bathtubs].
    rewrite filter_app. cbn [filter id].
    destruct (next_rowid db =? entry_id) eqn:Heq;
      [apply Z.eqb_eq in Heq; lia |].
    rewrite app_nil_r. exact Hentry.
  - lia.
  - rewrite length_app. cbn. lia.
Qed.

Lemma add_bathtub_keeps_records_witness :
  get_entry_by_id
    (snd (add_bathtub "2024-05-02 08:00:00" classic_db "Corner"
            140 140 75 50 0 "N/A")) 1
  = get_entry_by_id classic_db 1.
Proof.
  apply (add_bathtub_keeps_records "2024-05-02 08:00:00" classic_db "Corner"
           140 140 75 50 0 "N/A" 1
           (Bathtub 1 "Classic" 150 120 70 45 (calculate_incline 150 120 45)
                    "180" "2024-05-01 09:30:00")).
  reflexivity.
Defined.

(** Deleting the record just inserted gives back the table as it was,
    and the identifier is not handed out again: the next insert gets the
    following number. *)
Theorem add_delete_add_fresh_id
    (now1 now2 : string) (db : database) (name1 name2 : string)
    (top1 bottom1 width1 height1 incline1 : R) (liters1 : string)
    (top2 bottom2 width2 height2 incline2 : R) (liters2 : string) :
  let first :=
    add_bathtub now1 db name1 top1 bottom1 width1 height1 incline1 liters1 in
  let deleted := delete_bathtub (snd first) (fst first) in
  let second :=
    add_bathtub now2 (snd deleted) name2 top2 bottom2 width2 height2
                incline2 liters2 in
  fst deleted = true
  /\ bathtubs (snd deleted) = bathtubs db
  /\ fst second = fst first + 1.
Proof.
  cbv zeta. cbn [add_bathtub delete_bathtub fst snd bathtubs sqlite_sequence].
  rewrite !filter_app. cbn [filter id]. rewrite Z.eqb_refl.
  rewrite no_row_with_next_rowid. cbn [negb app List.length].
  assert (Hkeep : filter (fun r => negb (id r =? next_rowid db)) (bathtubs db)
                  = bathtubs db).
  { apply filter_all. intros r Hin. apply next_rowid_fresh in Hin.
    apply negb_true_iff, Z.eqb_neq. lia. }
  rewrite Hkeep, app_nil_r. repeat split.
  unfold next_rowid at 1. cbn [bathtubs sqlite_sequence].
  pose proof (Z.le_max_l (max_rowid (bathtubs db)) (sqlite_sequence db)).
  unfold next_rowid. lia.
Qed.

(** Deleting an existing record returns [True]; the record is gone and
    every other record is still found as before. *)
Theorem delete_bathtub_existing (db : database) (bathtub_id : Z)
    (entry : bathtub) :
  get_entry_by_id db bathtub_id = Some entry ->
  fst (delete_bathtub db bathtub_id) = true
  /\ get_entry_by_id (snd (delete_bathtub db bathtub_id)) bathtub_id = None
  /\ (forall other : Z,
        other <> bathtub_id ->
        get_entry_by_id (snd (delete_bathtub db bathtub_id)) other
        = get_entry_by_id db other).
Proof.
  intros Hentry. rewrite get_entry_by_id_filter in Hentry.
  cbn [delete_bathtub fst snd]. split; [| split].
  - destruct (filter _ (bathtubs db)); [discriminate | reflexivity].
  - apply get_entry_by_id_none. cbn [bathtubs].
    apply filter_none. intros r Hin. apply filter_In in Hin as [_ Hin].
    apply negb_true_iff in Hin. exact Hin.
  - intros other Hother. destruct db as [rows sequence].
    apply get_entry_by_id_other_filter. cbn [bathtubs].
    apply filter_filter_other. lia.
Qed.

Lemma delete_bathtub_existing_witness :
  fst (delete_bathtub classic_db 1) = true
  /\ get_entry_by_id (snd (delete_bathtub classic_db 1)) 1 = None.
Proof.
  destruct (delete_bathtub_existing classic_db 1
              (Bathtub 1 "Classic" 150 120 70 45
                       (calculate_incline 150 120 45)
                       "180" "2024-05-01 09:30:00") eq_refl)
    as (Htrue & Hgone & _).
  split; assumption.
Defined.

End MoreStoreTheorems.

(** ** Listings and searches *)

Section ListingFacts.
Local Open Scope string_scope.

Lemma string_leb_false (a b : string) :
  String.leb a b = false -> String.leb b a = true.
Proof.
  intros H. destruct (String.leb_total a b) as [Hab | Hba]; congruence.
Qed.

Lemma insert_by_name_perm (r : bathtub) (rows : list bathtub) :
  Permutation (insert_by_name r rows) (r :: rows).
Proof.
  induction rows as [| r' rows IH]; cbn [insert_by_name].
  - apply Permutation_refl.
  - destruct (String.leb (name r) (name r')).
    + apply Permutation_refl.
    + apply perm_trans with (r' :: r :: rows).
      * apply perm_skip. exact IH.
      * apply perm_swap.
Qed.

Lemma order_by_name_perm (rows : list bathtub) :
  Permutation (order_by_name rows) rows.
Proof.
  induction rows as [| r rows IH]; cbn [order_by_name fold_right].
  - apply perm_nil.
  - fold (order_by_name rows).
    apply perm_trans with (r :: order_by_name rows).
    + apply insert_by_name_perm.
    + apply perm_skip. exact IH.
Qed.

Lemma insert_by_name_sorted (r : bathtub) (rows : list bathtub) :
  Sorted name_le rows -> Sorted name_le (insert_by_name r rows).
Proof.
  induction rows as [| a rows IH]; intros Hs; cbn [insert_by_name].
  - repeat constructor.
  - destruct (String.leb (name r) (name a)) eqn:Hra.
    + constructor; [exact Hs | constructor; exact Hra].
    + apply string_leb_false in Hra.
      inversion Hs as [| x xs Hrows Hhd]; subst.
      constructor; [exact (IH Hrows) |].
      destruct rows as [| b rows]; cbn [insert_by_name].
      * constructor. exact Hra.
      * destruct (String.leb (name r) (name b)).
        -- constructor. exact Hra.
        -- inversion Hhd; subst. constructor. assumption.
Qed.

Lemma order_by_name_sorted (rows : list bathtub) :
  Sorted name_le (order_by_name rows).
Proof.
  induction rows as [| r rows IH]; cbn [order_by_name fold_right].
  - constructor.
  - apply insert_by_name_sorted. exact IH.
Qed.

Lemma insert_by_created_at_desc_perm (r : bathtub) (rows : list bathtub) :
  Permutation (insert_by_created_at_desc r rows) (r :: rows).
Proof.
  induction rows as [| r' rows IH]; cbn [insert_by_created_at_desc].
  - apply Permutation_refl.
  - destruct (String.leb (created_at r') (created_at r)).
    + apply Permutation_refl.
    + apply perm_trans with (r' :: r :: rows).
      * apply perm_skip. exact IH.
      * apply perm_swap.
Qed.

Lemma insert_by_created_at_desc_sorted (r : bathtub) (rows : list bathtub) :
  Sorted created_at_ge rows ->
  Sorted created_at_ge (insert_by_created_at_desc r rows).
Proof.
  induction rows as [| a rows IH]; intros Hs; cbn [insert_by_created_at_desc].
  - repeat constructor.
  - destruct (String.leb (created_at a) (created_at r)) eqn:Har.
    + constructor; [exact Hs | constructor; exact Har].
    + apply string_leb_false in Har.
      inversion Hs as [| x xs Hrows Hhd]; subst.
      constructor; [exact (IH Hrows) |].
      destruct rows as [| b rows]; cbn [insert_by_created_at_desc].
      * constructor. exact Har.
      * destruct (String.leb (created_at b) (created_at r)).
        -- constructor. exact Har.
        -- inversion Hhd; subst. constructor. assumption.
Qed.

(** A pattern without room for [%] matches what it accepts. *)
Lemma patternCompare_accepts
    (text matched rest_pattern rest_text : string) :
  accepts_with_underscores text matched = true ->
  patternCompare rest_pattern rest_text = true ->
  patternCompare (text ++ rest_pattern) (matched ++ rest_text) = true.
Proof.
  intros Hacc Hrest. revert matched Hacc.
  induction text as [| p text IH]; intros matched Hacc.
  - destruct matched; [exact Hrest | discriminate].
  - destruct matched as [| c matched]; [discriminate |].
    cbn [accepts_with_underscores] in Hacc.
    apply andb_prop in Hacc as [Hpc Hacc].
    specialize (IH matched Hacc). cbn [append].
    destruct (Ascii.eqb p "%") eqn:Hp.
    + apply Ascii.eqb_eq in Hp. subst p.
      rewrite patternCompare_percent.
      rewrite (patternCompare_percent (text ++ rest_pattern)
                 (matched ++ rest_text)).
      rewrite IH. cbn. apply orb_true_r.
    + rewrite (patternCompare_char p _ c _ Hp), IH, Hpc. reflexivity.
Qed.

End ListingFacts.

Section ListingTheorems.
Local Open Scope string_scope.

(** The full listing of the manager shows every record of the table
    exactly once, in ascending order of the names. *)
Theorem search_entries_lists_all (db : database) (search_by_id : bool) :
  Permutation (search_entries db None search_by_id) (bathtubs db)
  /\ Sorted name_le (search_entries db None search_by_id).
Proof.
  cbn [search_entries]. split.
  - apply order_by_name_perm.
  - apply order_by_name_sorted.
Qed.

(** The listing of the form's table view shows every record exactly
    once, the newest creation time first. *)
Theorem get_all_bathtubs_newest_first (db : database) :
  Permutation (get_all_bathtubs db) (bathtubs db)
  /\ Sorted created_at_ge (get_all_bathtubs db).
Proof.
  unfold get_all_bathtubs, order_by_created_at_desc. split.
  - induction (bathtubs db) as [| r rows IH]; cbn [fold_right].
    + apply perm_nil.
    + apply perm_trans with (r :: fold_right insert_by_created_at_desc [] rows).
      * apply insert_by_created_at_desc_perm.
      * apply perm_skip. exact IH.
  - induction (bathtubs db) as [| r rows IH]; cbn [fold_right].
    + constructor.
    + apply insert_by_created_at_desc_sorted. exact IH.
Qed.

(** An empty search text selects the whole table: the search by name
    then returns what the full listing returns. *)
Theorem search_entries_empty_text (db : database) :
  search_entries db (Some "") false = search_entries db None false.
Proof.
  cbn [search_entries append]. f_equal.
  apply filter_all. intros r _. unfold sql_like.
  change (c_string "%%") with "%%".
  rewrite patternCompare_percent, patternCompare_percent_all. reflexivity.
Qed.

(** The search text is not escaped: an underscore in it stands for any
    single character.  A record is returned as soon as a run of
    characters of its name is accepted by the text read in this way.
    Name and text are without NUL, where [LIKE] stops reading, and the
    pattern stays within the length SQLite accepts. *)
Theorem search_entries_underscore_wildcard
    (db : database) (text : string) (r : bathtub)
    (before matched after : string) :
  no_nul text = true ->
  no_nul (name r) = true ->
  (utf8_length ("%" ++ text ++ "%") <= like_pattern_limit)%Z ->
  In r (bathtubs db) ->
  name r = before ++ matched ++ after ->
  accepts_with_underscores text matched = true ->
  In r (search_entries db (Some text) false).
Proof.
  intros Htext Hnul _ Hin Hname Hacc.
  apply search_entries_by_name. split; [exact Hin |].
  rewrite (sql_like_no_nul text (name r) Htext Hnul).
  rewrite Hname. cbn [append]. apply patternCompare_percent_skip.
  rewrite patternCompare_percent.
  rewrite (patternCompare_accepts text matched "%" after Hacc
             (patternCompare_percent_all after)).
  reflexivity.
Qed.

Lemma search_entries_underscore_wildcard_witness :
  let r := Bathtub 1 "Classic" 150 120 70 45 (calculate_incline 150 120 45)
                   "180" "2024-05-01 09:30:00" in
  (no_nul "A_S" = true
   /\ no_nul (name r) = true
   /\ (utf8_length ("%" ++ "A_S" ++ "%") <= like_pattern_limit)%Z
   /\ In r (bathtubs classic_db)
   /\ name r = "Cl" ++ "ass" ++ "ic"
   /\ accepts_with_underscores "A_S" "ass" = true)
  /\ In r (search_entries classic_db (Some "A_S") false).
Proof.
  cbv zeta.
  assert (Hin : In (Bathtub 1 "Classic" 150 120 70 45
                            (calculate_incline 150 120 45)
                            "180" "2024-05-01 09:30:00")
                   (bathtubs classic_db)) by (left; reflexivity).
  assert (Hlen : (utf8_length ("%" ++ "A_S" ++ "%") <= like_pattern_limit)%Z)
    by (vm_compute; discriminate).
  split; [repeat split; solve [reflexivity | exact Hin | exact Hlen] |].
  apply (search_entries_underscore_wildcard classic_db "A_S" _
           "Cl" "ass" "ic"); solve [reflexivity | exact Hin | exact Hlen].
Defined.

(** The scenario of the specification: a record inserted under the
    name "Polypex" is among the records the search for "polyp"
    returns. *)
Theorem search_entries_finds_polypex
    (now : string) (db : database)
    (top bottom width0 height0 side_incline : R) (liters0 : string) :
  let inserted :=
    add_bathtub now db "Polypex" top bottom width0 height0
                side_incline liters0 in
  In (Bathtub (fst inserted) "Polypex" top bottom width0 height0
              side_incline liters0 now)
     (search_entries (snd inserted) (Some "polyp") false).
Proof.
  intros inserted.
  apply search_entries_by_name. split.
  - subst inserted. cbn [add_bathtub fst snd bathtubs].
    apply in_or_app. right. left. reflexivity.
  - reflexivity.
Qed.

End ListingTheorems.

(** ** Record editor: what an update touches *)

Section MoreUpdateFacts.
Local Open Scope string_scope.
Local Open Scope Z_scope.

Variable float_of_string : string -> string + R.
Variable float_repr : R -> string.

Lemma set_column_created_at (field : string) (v : sql_value) (r : bathtub) :
  created_at (set_column field v r) = created_at r.
Proof.
  unfold set_column. destruct v;
    repeat match goal with
           | |- context [String.eqb field ?lit] => destruct (String.eqb field lit)
           end; reflexivity.
Qed.

Lemma map_created_at_update_rows (field : string) (v : sql_value)
    (entry_id : Z) (rows : list bathtub) :
  map created_at
      (map (fun r => if id r =? entry_id then set_column field v r else r) rows)
  = map created_at rows.
Proof.
  induction rows as [| r rows IH]; [reflexivity |].
  cbn [map]. rewrite IH. f_equal.
  destruct (id r =? entry_id); [apply set_column_created_at | reflexivity].
Qed.

(** The editable keys of [FIELDS], each with the type it declares. *)
Lemma editable_field_cases (field : string) (info : field_info) :
  dict_get FIELDS field = Some info ->
  get_readonly info = false ->
  (type info = py_str /\ (field = "name" \/ field = "liters"))
  \/ (type info = py_float
      /\ (field = "top_length" \/ field = "bottom_length" \/ field = "width"
          \/ field = "height" \/ field = "side_incline_degrees")).
Proof.
  unfold FIELDS. cbn [dict_get].
  repeat match goal with
         | |- context [String.eqb ?lit field] =>
             destruct (String.eqb_spec lit field) as [<- | ?]
         end;
    intros [= <-]; cbn; intros Hro; try discriminate Hro; tauto.
Qed.

(** The value a conversion yields has the kind of the declared type. *)
Lemma convert_value_kind (ty : py_type) (new_value : py_value) (v : sql_value) :
  convert_value float_of_string float_repr ty new_value = inr v ->
  match ty with
  | py_str => exists s, v = SqlText s
  | py_float => exists x, v = SqlReal x
  end.
Proof.
  destruct ty, new_value; cbn.
  - intros [= <-]. eauto.
  - intros [= <-]. eauto.
  - destruct (float_of_string s); [discriminate |]. intros [= <-]. eauto.
  - intros [= <-]. eauto.
Qed.

(** What [update_field] does when it returns. *)
Lemma update_field_returns (db : database) (entry_id : Z) (field : string)
    (new_value : py_value) (affected : bool) :
  fst (update_field float_of_string float_repr db entry_id field new_value)
  = Return affected ->
  exists info v,
    dict_get FIELDS field = Some info
    /\ get_readonly info = false
    /\ convert_value float_of_string float_repr (type info) new_value = inr v
    /\ update_field float_of_string float_repr db entry_id field new_value
       = (Return (0 <? fst (execute_update db field v entry_id)),
          snd (execute_update db field v entry_id)).
Proof.
  unfold update_field.
  destruct (dict_get FIELDS field) as [info |]; [| discriminate].
  destruct (get_readonly info) eqn:Hro; [discriminate |].
  destruct (convert_value float_of_string float_repr (type info) new_value)
    as [e | v] eqn:Hconv; [discriminate |].
  intros _. exists info, v. repeat split; trivial.
Qed.

(** The database after [update_field]: the one before, or the result of
    the [UPDATE] statement. *)
Lemma update_field_database (db : database) (entry_id : Z) (field : string)
    (new_value : py_value) :
  snd (update_field float_of_string float_repr db entry_id field new_value)
  = db
  \/ exists v,
       snd (update_field float_of_string float_repr db entry_id field
                         new_value)
       = snd (execute_update db field v entry_id).
Proof.
  unfold update_field.
  destruct (dict_get FIELDS field) as [info |]; [| left; reflexivity].
  destruct (get_readonly info); [left; reflexivity |].
  destruct (convert_value float_of_string float_repr (type info) new_value)
    as [e | v]; [left; reflexivity |].
  right. exists v. destruct (execute_update db field v entry_id). reflexivity.
Qed.

(** Writing a column twice keeps the later value. *)
Lemma set_column_twice (field : string) (info : field_info)
    (new1 new2 : py_value) (v1 v2 : sql_value) (r : bathtub) :
  dict_get FIELDS field = Some info ->
  get_readonly info = false ->
  convert_value float_of_string float_repr (type info) new1 = inr v1 ->
  convert_value float_of_string float_repr (type info) new2 = inr v2 ->
  set_column field v2 (set_column field v1 r) = set_column field v2 r.
Proof.
  intros Hget Hro H1 H2.
  apply convert_value_kind in H1. apply convert_value_kind in H2.
  destruct (editable_field_cases field info Hget Hro) as [[Hty Hf] | [Hty Hf]];
    rewrite Hty in H1, H2; destruct H1 as [a1 ->], H2 as [a2 ->];
    repeat (destruct Hf as [-> | Hf]); try subst field; reflexivity.
Qed.

(** The column an update names takes the new value in [dict(row)], and
    every other column keeps its value. *)
Lemma row_dict_set_column (field : string) (info : field_info)
    (new_value : py_value) (v : sql_value) (r : bathtub) :
  dict_get FIELDS field = Some info ->
  get_readonly info = false ->
  convert_value float_of_string float_repr (type info) new_value = inr v ->
  dict_get (row_dict (set_column field v r)) field = Some (cell_of_sql_value v)
  /\ (forall column : string,
        column <> field ->
        dict_get (row_dict (set_column field v r)) column
        = dict_get (row_dict r) column).
Proof.
  intros Hget Hro Hconv. apply convert_value_kind in Hconv.
  destruct (editable_field_cases field info Hget Hro) as [[Hty Hf] | [Hty Hf]];
    rewrite Hty in Hconv; destruct Hconv as [a ->];
    repeat (destruct Hf as [-> | Hf]); try subst field;
    (split; [reflexivity |]);
    intros column Hne; cbn [set_column String.eqb Ascii.eqb Bool.eqb];
    unfold row_dict; cbn [dict_get id name top_length bottom_length width
                                   height side_incline_degrees liters
                                   created_at];
    repeat match goal with
           | |- context [String.eqb ?lit column] =>
               destruct (String.eqb_spec lit column) as [<- | ?]
           end; congruence.
Qed.

End MoreUpdateFacts.

Section MoreUpdateTheorems.
Local Open Scope string_scope.
Local Open Scope Z_scope.

Variable float_of_string : string -> string + R.
Variable float_repr : R -> string.

(** Whatever its arguments and its result, [update_field] leaves every
    record with another identifier as it was, keeps the identifiers and
    the creation times of all records in place, and does not move the
    id counter. *)
Theorem update_field_frame (db : database) (entry_id : Z) (field : string)
    (new_value : py_value) :
  let db' :=
    snd (update_field float_of_string float_repr db entry_id field
                      new_value) in
  (forall other : Z,
     other <> entry_id ->
     get_entry_by_id db' other = get_entry_by_id db other)
  /\ map id (bathtubs db') = map id (bathtubs db)
  /\ map created_at (bathtubs db') = map created_at (bathtubs db)
  /\ sqlite_sequence db' = sqlite_sequence db.
Proof.
  cbv zeta.
  destruct (update_field_database float_of_string float_repr db entry_id
              field new_value) as [-> | [v ->]].
  - repeat split; reflexivity.
  - cbn [execute_update snd bathtubs sqlite_sequence].
    rewrite map_id_update_rows, map_created_at_update_rows.
    repeat split; try reflexivity.
    intros other Hother. destruct db as [rows sequence].
    apply get_entry_by_id_other_filter. cbn [bathtubs].
    apply filter_update_other. lia.
Qed.

(** A second update of the same field of the same record overwrites the
    first: after both, the database is what the second alone would have
    made of the original.  In particular repeating an update changes
    nothing further. *)
Theorem update_field_last_write_wins
    (db : database) (entry_id : Z) (field : string)
    (first second : py_value) (affected : bool) :
  fst (update_field float_of_string float_repr db entry_id field second)
  = Return affected ->
  snd (update_field float_of_string float_repr
         (snd (update_field float_of_string float_repr db entry_id field
                            first))
         entry_id field second)
  = snd (update_field float_of_string float_repr db entry_id field second).
Proof.
  intros Hsecond.
  destruct (update_field_returns float_of_string float_repr db entry_id field
              second affected Hsecond) as (info & v2 & Hget & Hro & Hconv2 & _).
  unfold update_field. rewrite Hget, Hro, Hconv2.
  destruct (convert_value float_of_string float_repr (type info) first)
    as [msg | v1] eqn:Hconv1.
  - reflexivity.
  - cbn [execute_update snd fst bathtubs sqlite_sequence]. f_equal.
    rewrite map_map. apply map_ext. intros r.
    destruct (id r =? entry_id) eqn:Hr.
    + rewrite set_column_id, Hr.
      apply (set_column_twice float_of_string float_repr field info
               first second v1 v2 r Hget Hro Hconv1 Hconv2).
    + rewrite Hr. reflexivity.
Qed.

(** A successful update of an existing record changes the column it
    names and no other: read back as a dictionary, the record has the
    new value under the field name and its old values under every other
    column name. *)
Theorem update_field_changes_one_column
    (db : database) (entry_id : Z) (entry : bathtub) (field : string)
    (new_value : py_value) (info : field_info) (v : sql_value) :
  get_entry_by_id db entry_id = Some entry ->
  dict_get FIELDS field = Some info ->
  get_readonly info = false ->
  convert_value float_of_string float_repr (type info) new_value = inr v ->
  exists entry' : bathtub,
    get_entry_by_id
      (snd (update_field float_of_string float_repr db entry_id field
                         new_value)) entry_id
    = Some entry'
    /\ dict_get (row_dict entry') field = Some (cell_of_sql_value v)
    /\ (forall column : string,
          column <> field ->
          dict_get (row_dict entry') column = dict_get (row_dict entry) column).
Proof.
  intros Hentry Hget Hro Hconv.
  rewrite (update_field_checked float_of_string float_repr db entry_id field
             new_value info v Hget Hro Hconv).
  destruct (execute_update_hit db field v entry_id entry Hentry) as [_ Hread].
  exists (set_column field v entry). cbn [snd]. split; [exact Hread |].
  apply (row_dict_set_column float_of_string float_repr field info new_value
           v entry Hget Hro Hconv).
Qed.

End MoreUpdateTheorems.

Section MoreUpdateExamples.
Local Open Scope string_scope.
Local Open Scope Z_scope.

Lemma update_field_frame_witness :
  1 <> 2
  /\ get_entry_by_id
       (snd (update_field decimal_float float_repr_placeholder two_records_db
                          2 "name" (PyStr "Nook"))) 1
     = get_entry_by_id two_records_db 1.
Proof.
  assert (H : 1 <> 2) by lia. split; [exact H |].
  exact (proj1 (update_field_frame decimal_float float_repr_placeholder
                  two_records_db 2 "name" (PyStr "Nook")) 1 H).
Defined.

Lemma update_field_last_write_wins_witness :
  fst (update_field decimal_float float_repr_placeholder classic_db 1
                    "liters" (PyStr "200"))
  = Return true
  /\ snd (update_field decimal_float float_repr_placeholder
            (snd (update_field decimal_float float_repr_placeholder
                               classic_db 1 "liters" (PyStr "190")))
            1 "liters" (PyStr "200"))
     = snd (update_field decimal_float float_repr_placeholder classic_db 1
                         "liters" (PyStr "200")).
Proof.
  split; [reflexivity |].
  apply (update_field_last_write_wins decimal_float float_repr_placeholder
           classic_db 1 "liters" (PyStr "190") (PyStr "200") true).
  reflexivity.
Defined.

Lemma update_field_changes_one_column_witness :
  exists entry' : bathtub,
    get_entry_by_id
      (snd (update_field decimal_float float_repr_placeholder classic_db 1
                         "width" (PyStr "75"))) 1
    = Some entry'
    /\ dict_get (row_dict entry') "width" = Some (CellFloat 75)
    /\ dict_get (row_dict entry') "name" = Some (CellStr "Classic").
Proof.
  destruct (update_field_changes_one_column decimal_float
              float_repr_placeholder classic_db 1
              (Bathtub 1 "Classic" 150 120 70 45
                       (calculate_incline 150 120 45)
                       "180" "2024-05-01 09:30:00")
              "width" (PyStr "75")
              (FieldInfo py_float "Width (cm)" true None) (SqlReal 75)
              eq_refl eq_refl eq_refl eq_refl)
    as (entry' & Hread & Hnew & Hold).
  exists entry'. split; [exact Hread |]. split; [exact Hnew |].
  rewrite (Hold "name"); [reflexivity | discriminate].
Defined.

End MoreUpdateExamples.

(** ** The interactive form: outcome of a save *)

Section MoreFormTheorems.
Local Open Scope string_scope.

Variable float_of_string : string -> string + R.

(** A save that fails validation changes neither the database nor the
    six inputs, and turns the banner to the error style: with the text
    "Please enter a name" for an empty name, and otherwise "Please enter
    valid numeric values" when [float] rejects a measurement. *)
Theorem save_bathtub_failure_keeps_inputs
    (now : string) (db : database) (s : screen) :
  name_input s = ""
  \/ (exists e, float_of_string (top_length_input s) = inl e
                \/ float_of_string (bottom_length_input s) = inl e
                \/ float_of_string (width_input s) = inl e
                \/ float_of_string (height_input s) = inl e) ->
  save_bathtub float_of_string now db s
  = (db,
     Screen (name_input s) (top_length_input s) (bottom_length_input s)
            (width_input s) (height_input s) (liters_input s)
            (Plain (if py_truthy (name_input s)
                    then "Please enter valid numeric values"
                    else "Please enter a name"),
             error_display_class)).
Proof.
  intros H. unfold save_bathtub, show_error.
  destruct (py_truthy (name_input s)) eqn:Hname; cbn [negb]; [| reflexivity].
  destruct H as [H | [e H]].
  - rewrite H in Hname. discriminate.
  - destruct (float_of_string (top_length_input s)),
             (float_of_string (bottom_length_input s)),
             (float_of_string (width_input s)),
             (float_of_string (height_input s));
      try reflexivity.
    destruct H as [H | [H | [H | H]]]; discriminate.
Qed.

End MoreFormTheorems.

Section MoreFormExamples.
Local Open Scope string_scope.

Lemma save_bathtub_failure_keeps_inputs_witness :
  let s := Screen "Classic" "150" "wide" "70" "45" ""
                  (Plain "", result_display_class) in
  save_bathtub decimal_float "2024-05-01 09:30:00" classic_db s
  = (classic_db,
     Screen "Classic" "150" "wide" "70" "45" ""
            (Plain "Please enter valid numeric values", error_display_class)).
Proof.
  cbv zeta.
  apply (save_bathtub_failure_keeps_inputs decimal_float
           "2024-05-01 09:30:00" classic_db
           (Screen "Classic" "150" "wide" "70" "45" ""
                   (Plain "", result_display_class))).
  right. exists "could not convert string to float: 'wide'".
  right. left. reflexivity.
Defined.

End MoreFormExamples.

(** ** The interactive editor: the field and the value it hands on *)

Section InteractiveFacts.
Local Open Scope string_scope.
Local Open Scope Z_scope.

Variable float_of_string : string -> string + R.


End InteractiveFacts.

Section InteractiveTheorems.
Local Open Scope string_scope.
Local Open Scope Z_scope.

Variable float_of_string : string -> string + R.
Variable float_repr : R -> string.


End InteractiveTheorems.

Section InteractiveExamples.
Local Open Scope string_scope.
Local Open Scope Z_scope.


End InteractiveExamples.

(** ** The interactive editor: sessions *)

Section SessionInput.
Local Open Scope string_scope.
Local Open Scope Z_scope.

Lemma left_of_refl (inputs : list string) : left_of inputs inputs.
Proof. exists []. reflexivity. Qed.

Lemma left_of_cons (line : string) (rest inputs : list string) :
  left_of rest inputs -> left_of rest (line :: inputs).
Proof. intros [consumed ->]. exists (line :: consumed). reflexivity. Qed.

Lemma left_of_trans (a b c : list string) :
  left_of a b -> left_of b c -> left_of a c.
Proof.
  intros [x ->] [y ->]. exists (y ++ x)%list. rewrite app_assoc. reflexivity.
Qed.

Lemma left_of_nil (inputs : list string) : left_of [] inputs.
Proof. exists inputs. rewrite app_nil_r. reflexivity. Qed.

Lemma left_of_In (rest inputs : list string) (line : string) :
  left_of rest inputs -> In line rest -> In line inputs.
Proof. intros [consumed ->] Hin. apply in_or_app. right. exact Hin. Qed.

Lemma left_of_length (rest inputs : list string) :
  left_of rest inputs -> (List.length rest <= List.length inputs)%nat.
Proof. intros [consumed ->]. rewrite length_app. lia. Qed.

(** Every search returns records of the table. *)
Lemma search_entries_in_table (db : database) (search_term : option string)
    (search_by_id : bool) (e : bathtub) :
  In e (search_entries db search_term search_by_id) -> In e (bathtubs db).
Proof.
  unfold search_entries. destruct search_term as [term |].
  - destruct search_by_id.
    + destruct (py_int term); [| contradiction].
      intros H. apply filter_In in H. tauto.
    + rewrite order_by_name_In. intros H. apply filter_In in H. tauto.
  - rewrite order_by_name_In. trivial.
Qed.

Lemma select_field_left (inputs rest : list string)
    (chosen : string * field_info) :
  select_field inputs = Answer chosen rest ->
  left_of rest inputs /\ (List.length rest < List.length inputs)%nat.
Proof.
  induction inputs as [| line inputs IH]; cbn [select_field]; [discriminate |].
  assert (Hrec : select_field inputs = Answer chosen rest ->
                 left_of rest (line :: inputs)
                 /\ (List.length rest < List.length (line :: inputs))%nat).
  { intros H. destruct (IH H) as [Hl Hn]. split;
      [apply left_of_cons; exact Hl | cbn [List.length]; lia]. }
  destruct (py_int line) as [choice |]; [| exact Hrec].
  destruct ((1 <=? choice)
            && (choice <=? Z.of_nat (List.length editable_fields)));
    [| exact Hrec].
  destruct (nth_error editable_fields (Z.to_nat (choice - 1)));
    [| exact Hrec].
  intros [= _ <-]. split; [exists [line]; reflexivity | cbn [List.length]; lia].
Qed.

Lemma search_menu_spec (db : database) (inputs rest : list string)
    (entries : list bathtub) :
  search_menu db inputs = Answer entries rest ->
  (forall e, In e entries -> In e (bathtubs db))
  /\ left_of rest inputs.
Proof.
  remember (List.length inputs) as n eqn:Hn.
  revert inputs Hn. induction n as [n IH] using lt_wf_ind.
  intros inputs Hn. destruct inputs as [| line inputs];
    cbn [search_menu]; [discriminate |].
  cbn [List.length] in Hn.
  assert (Hrec : forall later,
            left_of later inputs ->
            search_menu db later = Answer entries rest ->
            (forall e, In e entries -> In e (bathtubs db))
            /\ left_of rest (line :: inputs)).
  { intros later Hlater H.
    pose proof (left_of_length _ _ Hlater) as Hlen.
    destruct (IH (List.length later) ltac:(lia) later eq_refl H) as [Hin Hl].
    split; [exact Hin |].
    apply left_of_cons. exact (left_of_trans _ _ _ Hl Hlater). }
  assert (Hfound : forall term by_id later,
            left_of later inputs ->
            Answer (search_entries db term by_id) later = Answer entries rest ->
            (forall e, In e entries -> In e (bathtubs db))
            /\ left_of rest (line :: inputs)).
  { intros term by_id later Hlater [= <- <-]. split.
    - intros e. apply search_entries_in_table.
    - apply left_of_cons. exact Hlater. }
  destruct (String.eqb (py_strip line) "1").
  { destruct inputs as [| line2 rest2]; [discriminate |].
    assert (Hl2 : left_of rest2 (line2 :: rest2))
      by (exists [line2]; reflexivity).
    destruct (negb (py_truthy (py_strip line2)));
      [apply Hrec; exact Hl2 | apply Hfound; exact Hl2]. }
  destruct (String.eqb (py_strip line) "2").
  { destruct inputs as [| line2 rest2]; [discriminate |].
    assert (Hl2 : left_of rest2 (line2 :: rest2))
      by (exists [line2]; reflexivity).
    destruct (py_int (py_strip line2));
      [apply Hfound; exact Hl2 | apply Hrec; exact Hl2]. }
  destruct (String.eqb (py_strip line) "3").
  { apply Hfound. apply left_of_refl. }
  apply Hrec. apply left_of_refl.
Qed.

Lemma choose_entry_spec (entries : list bathtub) (inputs rest : list string)
    (chosen : option bathtub) :
  choose_entry entries inputs = Answer chosen rest ->
  (exists e line,
     chosen = Some e /\ In e entries
     /\ In line inputs /\ py_int line = Some (id e))
  /\ left_of rest inputs.
Proof.
  induction inputs as [| line inputs IH]; cbn [choose_entry]; [discriminate |].
  assert (Hrec : choose_entry entries inputs = Answer chosen rest ->
                 (exists e l,
                    chosen = Some e /\ In e entries
                    /\ In l (line :: inputs) /\ py_int l = Some (id e))
                 /\ left_of rest (line :: inputs)).
  { intros H. destruct (IH H) as [(e & l & Hc & He & Hl & Hint) Hleft].
    split; [| apply left_of_cons; exact Hleft].
    exists e, l. repeat split; trivial. right. exact Hl. }
  destruct (py_int line) as [entry_id |] eqn:Hint; [| exact Hrec].
  destruct (find (fun e => id e =? entry_id) entries) as [e |] eqn:Hfind;
    [| exact Hrec].
  intros [= <- <-]. apply find_some in Hfind as [He Hid].
  apply Z.eqb_eq in Hid. split; [| exists [line]; reflexivity].
  exists e, line. repeat split; trivial; [left; reflexivity | congruence].
Qed.

End SessionInput.

Section SessionFacts.
Local Open Scope string_scope.
Local Open Scope Z_scope.

Variable float_of_string : string -> string + R.
Variable fromisoformat_error : string -> option string.
Variable float_repr : R -> string.

Lemma enter_value_left (info : field_info) (inputs rest : list string)
    (v : py_value) :
  enter_value float_of_string info inputs = Answer v rest ->
  left_of rest inputs /\ (List.length rest < List.length inputs)%nat.
Proof.
  induction inputs as [| line inputs IH]; cbn [enter_value]; [discriminate |].
  assert (Hrec : enter_value float_of_string info inputs = Answer v rest ->
                 left_of rest (line :: inputs)
                 /\ (List.length rest < List.length (line :: inputs))%nat).
  { intros H. destruct (IH H) as [Hl Hn]. split;
      [apply left_of_cons; exact Hl | cbn [List.length]; lia]. }
  assert (Hhere : forall a : py_value,
            Answer a inputs = Answer v rest ->
            left_of rest (line :: inputs)
            /\ (List.length rest < List.length (line :: inputs))%nat).
  { intros a [= _ <-]. split;
      [exists [line]; reflexivity | cbn [List.length]; lia]. }
  destruct (negb (py_truthy (py_strip line)) && negb (required info));
    [apply Hhere |].
  destruct (negb (py_truthy (py_strip line)) && required info);
    [exact Hrec |].
  destruct (type info); [apply Hhere |].
  destruct (float_of_string (py_strip line)); [exact Hrec | apply Hhere].
Qed.

Lemma interactive_field_selection_left (entry : bathtub)
    (inputs rest : list string) (result : string * py_value) :
  interactive_field_selection float_of_string entry inputs
  = Answer result rest ->
  left_of rest inputs /\ (List.length rest < List.length inputs)%nat.
Proof.
  unfold interactive_field_selection.
  destruct (select_field inputs) as [[field info] rest0 | | e] eqn:Hselect;
    [| discriminate | discriminate].
  destruct (enter_value float_of_string info rest0) as [v rest1 | | e]
    eqn:Henter; [| discriminate | discriminate].
  intros [= _ <-].
  destruct (select_field_left _ _ _ Hselect) as [Hl1 Hn1].
  destruct (enter_value_left _ _ _ _ Henter) as [Hl2 Hn2].
  split; [exact (left_of_trans _ _ _ Hl2 Hl1) | lia].
Qed.

Lemma interactive_search_spec (db : database) (inputs rest : list string)
    (found : option bathtub) :
  interactive_search fromisoformat_error db inputs = Answer found rest ->
  (forall e, found = Some e -> In e (bathtubs db))
  /\ left_of rest inputs.
Proof.
  unfold interactive_search.
  destruct (search_menu db inputs) as [entries rest0 | | e0] eqn:Hmenu;
    [| discriminate | discriminate].
  destruct (search_menu_spec db inputs rest0 entries Hmenu) as [Hin Hleft].
  destruct entries as [| first others].
  - intros [= <- <-]. split; [discriminate | exact Hleft].
  - destruct (display_entries fromisoformat_error (first :: others) true);
      [| discriminate].
    destruct others as [| second others].
    + intros [= <- <-]. split; [| exact Hleft].
      intros e [= <-]. apply Hin. left. reflexivity.
    + intros Hchoose.
      destruct (choose_entry_spec _ _ _ _ Hchoose)
        as [(e & l & -> & He & _ & _) Hleft2].
      split; [| exact (left_of_trans _ _ _ Hleft2 Hleft)].
      intros e' [= <-]. apply Hin. exact He.
Qed.

(** The layout of the table that no update changes. *)
Lemma update_field_keeps_layout (db : database) (entry_id : Z)
    (field : string) (new_value : py_value) :
  let db' :=
    snd (update_field float_of_string float_repr db entry_id field
                      new_value) in
  map id (bathtubs db') = map id (bathtubs db)
  /\ map created_at (bathtubs db') = map created_at (bathtubs db)
  /\ sqlite_sequence db' = sqlite_sequence db.
Proof.
  cbv zeta.
  destruct (update_field_database float_of_string float_repr db entry_id
              field new_value) as [-> | [v ->]].
  - repeat split; reflexivity.
  - cbn [execute_update snd bathtubs sqlite_sequence].
    rewrite map_id_update_rows, map_created_at_update_rows.
    repeat split; reflexivity.
Qed.

Lemma modify_entry_left (db : database) (entry : bathtub)
    (inputs : list string) :
  left_of (snd (modify_entry float_of_string float_repr db entry inputs))
          inputs.
Proof.
  unfold modify_entry.
  destruct (interactive_field_selection float_of_string entry inputs)
    as [[field v] rest | | e] eqn:Hsel; cbn [snd]; try apply left_of_nil.
  destruct (interactive_field_selection_left _ _ _ _ Hsel) as [Hleft _].
  destruct rest as [| line rest']; cbn [snd]; [apply left_of_nil |].
  assert (Hl : left_of rest' inputs).
  { apply (left_of_trans _ (line :: rest')); [| exact Hleft].
    exists [line]. reflexivity. }
  destruct (confirmed line); exact Hl.
Qed.

(** Without a confirming line the [try] block writes nothing. *)
Lemma modify_entry_unconfirmed (db : database) (entry : bathtub)
    (inputs : list string) :
  (forall line, In line inputs -> confirmed line = false) ->
  fst (modify_entry float_of_string float_repr db entry inputs) = db.
Proof.
  intros Hno. unfold modify_entry.
  destruct (interactive_field_selection float_of_string entry inputs)
    as [[field v] rest | | e] eqn:Hsel; cbn [fst]; try reflexivity.
  destruct (interactive_field_selection_left _ _ _ _ Hsel) as [Hleft _].
  destruct rest as [| line rest']; [reflexivity |].
  rewrite (Hno line); [reflexivity |].
  apply (left_of_In _ _ _ Hleft). left. reflexivity.
Qed.

Lemma modify_entry_keeps_layout (db : database) (entry : bathtub)
    (inputs : list string) :
  let db' := fst (modify_entry float_of_string float_repr db entry inputs) in
  map id (bathtubs db') = map id (bathtubs db)
  /\ map created_at (bathtubs db') = map created_at (bathtubs db)
  /\ sqlite_sequence db' = sqlite_sequence db.
Proof.
  cbv zeta. unfold modify_entry.
  destruct (interactive_field_selection float_of_string entry inputs)
    as [[field v] rest | | e]; cbn [fst]; try (repeat split; reflexivity).
  destruct rest as [| line rest']; [repeat split; reflexivity |].
  destruct (confirmed line); cbn [fst]; [| repeat split; reflexivity].
  apply update_field_keeps_layout.
Qed.

(** More fuel than lines changes nothing: the loop ends before the fuel
    does. *)
Lemma run_interactive_loop_fuel (fuel1 fuel2 : nat) (db : database)
    (inputs : list string) :
  (List.length inputs < fuel1)%nat ->
  (List.length inputs < fuel2)%nat ->
  run_interactive_loop float_of_string fromisoformat_error float_repr
                       fuel1 db inputs
  = run_interactive_loop float_of_string fromisoformat_error float_repr
                         fuel2 db inputs.
Proof.
  revert fuel2 db inputs.
  induction fuel1 as [| fuel1 IH]; intros fuel2 db inputs H1 H2; [lia |].
  destruct fuel2 as [| fuel2]; [lia |].
  cbn [run_interactive_loop].
  destruct inputs as [| line rest]; [reflexivity |].
  cbn [List.length] in H1, H2.
  destruct (String.eqb (py_strip line) "1").
  { destruct (interactive_search fromisoformat_error db rest)
      as [[entry |] rest' | | e] eqn:Hsearch; try reflexivity.
    - destruct (interactive_search_spec db rest rest' _ Hsearch) as [_ Hleft].
      pose proof (left_of_length _ _ Hleft) as Hlen.
      pose proof (modify_entry_left db entry rest') as Hleft'.
      destruct (modify_entry float_of_string float_repr db entry rest')
        as [db' rest'']. cbn [snd] in Hleft'.
      pose proof (left_of_length _ _ Hleft') as Hlen'.
      apply IH; lia.
    - destruct (interactive_search_spec db rest rest' _ Hsearch) as [_ Hleft].
      pose proof (left_of_length _ _ Hleft) as Hlen.
      apply IH; lia. }
  destruct (String.eqb (py_strip line) "2").
  { destruct (display_entries fromisoformat_error
                (search_entries db None false) true);
      [apply IH; lia | reflexivity]. }
  destruct (String.eqb (py_strip line) "3"); [reflexivity |].
  apply IH; lia.
Qed.

Lemma run_interactive_loop_keeps_layout (fuel : nat) (db : database)
    (inputs : list string) :
  let db' :=
    fst (run_interactive_loop float_of_string fromisoformat_error float_repr
                              fuel db inputs) in
  map id (bathtubs db') = map id (bathtubs db)
  /\ map created_at (bathtubs db') = map created_at (bathtubs db)
  /\ sqlite_sequence db' = sqlite_sequence db.
Proof.
  cbv zeta. revert db inputs.
  induction fuel as [| fuel IH]; intros db inputs; cbn [run_interactive_loop];
    [repeat split; reflexivity |].
  destruct inputs as [| line rest]; [repeat split; reflexivity |].
  destruct (String.eqb (py_strip line) "1").
  { destruct (interactive_search fromisoformat_error db rest)
      as [[entry |] rest' | | e]; try (repeat split; reflexivity);
      [| apply IH].
    pose proof (modify_entry_keeps_layout db entry rest') as Hm.
    destruct (modify_entry float_of_string float_repr db entry rest')
      as [db' rest'']. cbn [fst] in Hm.
    destruct Hm as (Hid & Hcreated & Hseq).
    destruct (IH db' rest'') as (Hid' & Hcreated' & Hseq').
    repeat split; congruence. }
  destruct (String.eqb (py_strip line) "2").
  { destruct (display_entries fromisoformat_error
                (search_entries db None false) true);
      [apply IH | repeat split; reflexivity]. }
  destruct (String.eqb (py_strip line) "3"); [repeat split; reflexivity |].
  apply IH.
Qed.

Lemma run_interactive_loop_unconfirmed (fuel : nat) (db : database)
    (inputs : list string) :
  (forall line, In line inputs -> confirmed line = false) ->
  fst (run_interactive_loop float_of_string fromisoformat_error float_repr
                            fuel db inputs)
  = db.
Proof.
  revert db inputs.
  induction fuel as [| fuel IH]; intros db inputs Hno;
    cbn [run_interactive_loop]; [reflexivity |].
  destruct inputs as [| line rest]; [reflexivity |].
  assert (Hrest : forall l, In l rest -> confirmed l = false)
    by (intros l Hl; apply Hno; right; exact Hl).
  destruct (String.eqb (py_strip line) "1").
  { destruct (interactive_search fromisoformat_error db rest)
      as [[entry |] rest' | | e] eqn:Hsearch; try reflexivity.
    - destruct (interactive_search_spec db rest rest' _ Hsearch) as [_ Hleft].
      assert (Hrest' : forall l, In l rest' -> confirmed l = false)
        by (intros l Hl; apply Hrest; exact (left_of_In _ _ _ Hleft Hl)).
      pose proof (modify_entry_unconfirmed db entry rest' Hrest') as Hdb.
      pose proof (modify_entry_left db entry rest') as Hleft'.
      destruct (modify_entry float_of_string float_repr db entry rest')
        as [db' rest'']. cbn [fst snd] in Hdb, Hleft'. subst db'.
      apply IH. intros l Hl. apply Hrest'.
      exact (left_of_In _ _ _ Hleft' Hl).
    - destruct (interactive_search_spec db rest rest' _ Hsearch) as [_ Hleft].
      apply IH. intros l Hl. apply Hrest.
      exact (left_of_In _ _ _ Hleft Hl). }
  destruct (String.eqb (py_strip line) "2").
  { destruct (display_entries fromisoformat_error
                (search_entries db None false) true);
      [apply IH; exact Hrest | reflexivity]. }
  destruct (String.eqb (py_strip line) "3"); [reflexivity |].
  apply IH. exact Hrest.
Qed.

End SessionFacts.

Section SessionTheorems.
Local Open Scope string_scope.
Local Open Scope Z_scope.

Variable float_of_string : string -> string + R.
Variable fromisoformat_error : string -> option string.
Variable float_repr : R -> string.

(** The entry [interactive_search] hands back is a record of the table,
    whichever way it was searched for and picked, and the lines left
    are a tail of the lines given. *)
Theorem interactive_search_returns_record
    (db : database) (inputs rest : list string) (entry : bathtub) :
  interactive_search fromisoformat_error db inputs
  = Answer (Some entry) rest ->
  In entry (bathtubs db) /\ left_of rest inputs.
Proof.
  intros H.
  destruct (interactive_search_spec fromisoformat_error db inputs rest
              (Some entry) H) as [Hin Hleft].
  split; [apply Hin; reflexivity | exact Hleft].
Qed.

(** An interactive session only edits fields: however it runs and
    however it ends, the table holds the same identifiers with the same
    creation times in the same places, and the id counter has not
    moved.  No record is added, removed or renumbered. *)
Theorem run_interactive_keeps_layout (db : database) (inputs : list string) :
  let db' :=
    fst (run_interactive float_of_string fromisoformat_error float_repr
                         db inputs) in
  map id (bathtubs db') = map id (bathtubs db)
  /\ map created_at (bathtubs db') = map created_at (bathtubs db)
  /\ sqlite_sequence db' = sqlite_sequence db.
Proof.
  unfold run_interactive. apply run_interactive_loop_keeps_layout.
Qed.

(** Nothing is written without a confirmation: when no line of the
    session reads [y] or [yes] once stripped and put in lower case, the
    database at the end is the database at the start. *)
Theorem run_interactive_unconfirmed (db : database) (inputs : list string) :
  (forall line, In line inputs -> confirmed line = false) ->
  fst (run_interactive float_of_string fromisoformat_error float_repr
                       db inputs)
  = db.
Proof.
  unfold run_interactive. apply run_interactive_loop_unconfirmed.
Qed.

End SessionTheorems.

Section SessionExamples.
Local Open Scope string_scope.
Local Open Scope Z_scope.

Lemma interactive_search_returns_record_witness :
  interactive_search (fun _ => None) two_records_db
                     ["1"; ""; "2"; "abc"; "1"; "c"; "7"; "2"; "more"]
  = Answer (Some (Bathtub 2 "Corner" 140 140 75 50 0 "N/A"
                          "2024-05-02 08:00:00")) ["more"]
  /\ In (Bathtub 2 "Corner" 140 140 75 50 0 "N/A" "2024-05-02 08:00:00")
        (bathtubs two_records_db).
Proof.
  assert (H : interactive_search (fun _ => None) two_records_db
                ["1"; ""; "2"; "abc"; "1"; "c"; "7"; "2"; "more"]
              = Answer (Some (Bathtub 2 "Corner" 140 140 75 50 0 "N/A"
                                      "2024-05-02 08:00:00")) ["more"])
    by reflexivity.
  split; [exact H |].
  exact (proj1 (interactive_search_returns_record (fun _ => None)
                  two_records_db _ _ _ H)).
Defined.

Lemma run_interactive_unconfirmed_witness :
  (forall line,
     In line ["1"; "1"; "class"; "7"; "200"; "n"; "3"] ->
     confirmed line = false)
  /\ fst (run_interactive decimal_float (fun _ => None)
            float_repr_placeholder classic_db
            ["1"; "1"; "class"; "7"; "200"; "n"; "3"])
     = classic_db.
Proof.
  assert (H : forall line,
            In line ["1"; "1"; "class"; "7"; "200"; "n"; "3"] ->
            confirmed line = false).
  { intros line Hin. cbn [In] in Hin.
    repeat (destruct Hin as [<- | Hin]; [reflexivity |]). contradiction. }
  split; [exact H |].
  exact (run_interactive_unconfirmed decimal_float (fun _ => None)
           float_repr_placeholder classic_db _ H).
Defined.

End SessionExamples.


(* ================================================================= *)
(** * The methods with the failures of the database: properties *)

Section FailureFacts.
Local Open Scope string_scope.
Local Open Scope Z_scope.

Variable python_float_of_string : string -> string + python_float.
Variable python_float_repr : python_float -> string.



(** What the binding leaves of a value: [NULL] for [nan] only. *)
Lemma bind_value_null (v : python_value) :
  bind_value v = None <-> v = Float NaN.
Proof.
  destruct v as [s | [x |]]; cbn; split; congruence.
Qed.



(** The two exceptions of the statement. *)
Lemma sqlite3_update_raises (db db' : database) (field : string)
    (v : python_value) (entry_id : Z) (e : exception) :
  sqlite3_update db field v entry_id = (Raise e, db') ->
  db' = db
  /\ ((int64 entry_id = false
       /\ e = OverflowError "Python int too large to convert to SQLite INTEGER")
      \/ (int64 entry_id = true /\ v = Float NaN /\ e = NotNullError field)).
Proof.
  unfold sqlite3_update, bind_int.
  destruct (int64 entry_id) eqn:Hint.
  - destruct (bind_value v) as [bound |] eqn:Hbound.
    + destruct (execute_update db field bound entry_id). discriminate.
    + apply bind_value_null in Hbound.
      destruct (existsb _ _); [| discriminate].
      intros [= <- <-]. split; [reflexivity |]. right. auto.
  - intros [= <- <-]. split; [reflexivity |]. left. auto.
Qed.

(** Past the conversion, [update_field] raises no [ValueError], and
    what it raises leaves the database as it was. *)
Lemma update_field_converted (db : database) (entry_id : Z) (field : string)
    (new_value : python_value) (info : field_info) (converted : python_value) :
  dict_get FIELDS field = Some info ->
  get_readonly info = false ->
  python_convert python_float_of_string python_float_repr (type info)
                 new_value = inr converted ->
  let updated :=
    BathtubDatabaseManager_update_field python_float_of_string
      python_float_repr db entry_id field new_value in
  (forall msg : string, fst updated <> Raise (ValueError msg))
  /\ (forall e : exception, fst updated = Raise e -> snd updated = db).
Proof.
  intros Hget Hro Hconv updated. subst updated.
  unfold BathtubDatabaseManager_update_field. rewrite Hget, Hro, Hconv.
  destruct (sqlite3_update db field converted entry_id) as [[n | e] db']
    eqn:Hexec.
  - cbn [fst snd]. split; [discriminate | discriminate].
  - destruct (sqlite3_update_raises _ _ _ _ _ _ Hexec)
      as [-> [[_ ->] | [_ [_ ->]]]]; cbn; split; (discriminate || reflexivity).
Qed.

(** C5, as the code has it.  On a numeric field [update_field] raises
    the invalid-value error for the texts that [float] rejects, with
    the database as it was, and for no other value: a text that [float]
    reads raises none, even when what it reads is [nan] and no real
    number, and neither does a [float].  On the text fields [name] and
    [liters] no value raises it. *)
Theorem update_field_invalid_value
    (db : database) (entry_id : Z) (field : string) :
  (In field ["top_length"; "bottom_length"; "width"; "height";
             "side_incline_degrees"] ->
   (forall s e : string,
      python_float_of_string s = inl e ->
      BathtubDatabaseManager_update_field python_float_of_string
        python_float_repr db entry_id field (Str s)
      = (Raise (InvalidValueError field e), db))
   /\ (forall (s e : string) (f : python_float),
         python_float_of_string s = inr f ->
         fst (BathtubDatabaseManager_update_field python_float_of_string
                python_float_repr db entry_id field (Str s))
         <> Raise (InvalidValueError field e))
   /\ (forall (f : python_float) (e : string),
         fst (BathtubDatabaseManager_update_field python_float_of_string
                python_float_repr db entry_id field (Float f))
         <> Raise (InvalidValueError field e)))
  /\ (In field ["name"; "liters"] ->
      forall (new_value : python_value) (e : string),
        fst (BathtubDatabaseManager_update_field python_float_of_string
               python_float_repr db entry_id field new_value)
        <> Raise (InvalidValueError field e)).
Proof.
  split.
  - intros Hfield.
    destruct (numeric_field_info field Hfield) as (info & Hget & Hro & Hty).
    split; [| split].
    + intros s e Hfloat.
      unfold BathtubDatabaseManager_update_field. rewrite Hget, Hro, Hty.
      cbn [python_convert]. rewrite Hfloat. reflexivity.
    + intros s e f Hfloat.
      apply (update_field_converted db entry_id field (Str s) info (Float f)
               Hget Hro).
      rewrite Hty. cbn [python_convert]. rewrite Hfloat. reflexivity.
    + intros f e.
      apply (update_field_converted db entry_id field (Float f) info (Float f)
               Hget Hro).
      rewrite Hty. reflexivity.
  - intros Hfield new_value e.
    destruct (text_field_info field Hfield) as (info & Hget & Hro & Hty).
    assert (Hconv : exists converted,
              python_convert python_float_of_string python_float_repr
                             (type info) new_value = inr converted).
    { rewrite Hty. destruct new_value; cbn; eauto. }
    destruct Hconv as [converted Hconv].
    apply (update_field_converted db entry_id field new_value info converted
             Hget Hro Hconv).
Qed.


(** Deleting under an identifier no record has returns [False] and
    leaves the database as it was, when the identifier is within the 64
    bits of an [INTEGER]; outside them the call ends in
    [OverflowError], with the database as it was. *)
Theorem Database_delete_bathtub_missing (db : database) (bathtub_id : Z) :
  get_entry_by_id db bathtub_id = None ->
  Database_delete_bathtub db bathtub_id
  = (if int64 bathtub_id then Return false
     else Raise (OverflowError
                   "Python int too large to convert to SQLite INTEGER"),
     db).
Proof.
  intros Hnone. unfold Database_delete_bathtub, bind_int.
  destruct (int64 bathtub_id); [| reflexivity].
  apply get_entry_by_id_none in Hnone.
  unfold delete_bathtub. rewrite Hnone. cbn [List.length Z.of_nat Z.ltb].
  f_equal. destruct db as [rows seq]. cbn [bathtubs sqlite_sequence] in *.
  f_equal.
  induction rows as [| r rows IH]; [reflexivity |].
  cbn [filter] in *. destruct (id r =? bathtub_id); [discriminate |].
  cbn [negb]. rewrite (IH Hnone). reflexivity.
Qed.

(** ** The insert and the form *)

(** On numbers the incline is the one of [calculate_incline]. *)
Lemma AddBathtubScreen_calculate_incline_finite (top bottom height0 : R) :
  AddBathtubScreen_calculate_incline (Finite top) (Finite bottom)
                                     (Finite height0)
  = Finite (calculate_incline top bottom height0).
Proof.
  unfold AddBathtubScreen_calculate_incline, calculate_incline, float_eqb.
  destruct (Req_dec_T height0 0); reflexivity.
Qed.

(** The insert returns on numbers only, and is then [add_bathtub]; so
    the success line of the form never has [nan] to print. *)
Lemma Database_add_bathtub_returns
    (now : string) (db db' : database) (name0 : string)
    (top bottom width0 height0 side_incline : python_float)
    (liters0 : string) (rowid : Z) :
  Database_add_bathtub now db name0 top bottom width0 height0 side_incline
                       liters0
  = (Return rowid, db') ->
  exists t b w h i : R,
    top = Finite t /\ bottom = Finite b /\ width0 = Finite w
    /\ height0 = Finite h /\ side_incline = Finite i
    /\ add_bathtub now db name0 t b w h i liters0 = (rowid, db').
Proof.
  unfold Database_add_bathtub.
  destruct top as [t |]; [| discriminate].
  destruct bottom as [b |]; [| discriminate].
  destruct width0 as [w |]; [| discriminate].
  destruct height0 as [h |]; [| discriminate].
  destruct side_incline as [i |]; [| discriminate].
  cbn [add_bathtub]. intros [= <- <-].
  exists t, b, w, h, i. repeat split; reflexivity.
Qed.

(** A save with a name and four measurements that [float] reads as real
    numbers stores one record that is then found under the returned
    identifier: the name as typed, the four numbers, the incline
    computed from them, and the stripped liters text or "N/A" when that
    is blank.  The banner announces the name with the incline, and the
    six inputs are empty again. *)
Theorem AddBathtubScreen_save_bathtub_saves_record
    (now : string) (db : database) (s : screen)
    (top bottom width0 height0 : R) :
  name_input s <> "" ->
  python_float_of_string (top_length_input s) = inr (Finite top) ->
  python_float_of_string (bottom_length_input s) = inr (Finite bottom) ->
  python_float_of_string (width_input s) = inr (Finite width0) ->
  python_float_of_string (height_input s) = inr (Finite height0) ->
  let saved :=
    AddBathtubScreen_save_bathtub python_float_of_string now db s in
  get_entry_by_id (fst saved) (next_rowid db)
  = Some (Bathtub (next_rowid db) (name_input s) top bottom width0 height0
                  (calculate_incline top bottom height0)
                  (if py_truthy (py_strip (liters_input s))
                   then py_strip (liters_input s) else "N/A")
                  now)
  /\ snd saved
     = Return
         (Screen "" "" "" "" "" ""
                 (Saved (name_input s) (calculate_incline top bottom height0),
                  result_display_class)).
Proof.
  intros Hname Htop Hbottom Hwidth Hheight saved. subst saved.
  unfold AddBathtubScreen_save_bathtub.
  destruct (name_input s) as [| c n] eqn:Hn; [congruence |].
  cbn [py_truthy negb]. rewrite Htop, Hbottom, Hwidth, Hheight.
  rewrite AddBathtubScreen_calculate_incline_finite.
  cbn [Database_add_bathtub add_bathtub fst snd]. split; [| reflexivity].
  rewrite get_entry_by_id_filter. cbn [bathtubs].
  rewrite filter_app, no_row_with_next_rowid.
  cbn [filter id app]. rewrite Z.eqb_refl. reflexivity.
Qed.


End FailureFacts.

(** ** The two readings of [update_field] *)

Section RealValues.
Local Open Scope string_scope.
Local Open Scope Z_scope.

Variable float_of_string : string -> string + R.
Variable float_repr : R -> string.
Variable python_float_of_string : string -> string + python_float.
Variable python_float_repr : python_float -> string.

(** The reader and the printer on real numbers are the ones of the
    first part. *)
Hypothesis float_rejects :
  forall s e, python_float_of_string s = inl e -> float_of_string s = inl e.
Hypothesis float_reads :
  forall s x,
    python_float_of_string s = inr (Finite x) -> float_of_string s = inr x.
Hypothesis float_prints :
  forall x, python_float_repr (Finite x) = float_repr x.


End RealValues.

(** ** The failures on concrete records *)

Section FailureExamples.
Local Open Scope string_scope.
Local Open Scope Z_scope.

(** C5, counterexample to the claim as stated.  The text "nan" does
    not read as a real number, and on the numeric field [width] it
    raises no invalid-value error: for an identifier without record
    the call returns [False], and for the record 1 it ends in the
    [sqlite3.Error] of the handler. *)
Lemma update_field_nan_is_no_invalid_value :
  decimal_or_nan_float "nan" = inr NaN
  /\ BathtubDatabaseManager_update_field decimal_or_nan_float
       python_float_repr_placeholder classic_db 999 "width" (Str "nan")
     = (Return false, classic_db)
  /\ BathtubDatabaseManager_update_field decimal_or_nan_float
       python_float_repr_placeholder classic_db 1 "width" (Str "nan")
     = (Raise (sqlite3_Error
                 "Database error: NOT NULL constraint failed: bathtubs.width"),
        classic_db).
Proof.
  repeat split; reflexivity.
Qed.

Lemma update_field_invalid_value_witness :
  (In "width" ["top_length"; "bottom_length"; "width"; "height";
               "side_incline_degrees"]
   /\ decimal_or_nan_float "wide"
      = inl "could not convert string to float: 'wide'")
  /\ BathtubDatabaseManager_update_field decimal_or_nan_float
       python_float_repr_placeholder classic_db 1 "width" (Str "wide")
     = (Raise (InvalidValueError "width"
                 "could not convert string to float: 'wide'"),
        classic_db).
Proof.
  assert (Hfield : In "width" ["top_length"; "bottom_length"; "width";
                               "height"; "side_incline_degrees"])
    by (cbn; tauto).
  assert (Hfloat : decimal_or_nan_float "wide"
                   = inl "could not convert string to float: 'wide'")
    by reflexivity.
  split; [split; [exact Hfield | exact Hfloat] |].
  exact (proj1 (proj1 (update_field_invalid_value decimal_or_nan_float
                         python_float_repr_placeholder classic_db 1 "width")
                      Hfield)
               "wide" _ Hfloat).
Defined.



Lemma Database_delete_bathtub_missing_witness :
  get_entry_by_id classic_db 999 = None
  /\ Database_delete_bathtub classic_db 999 = (Return false, classic_db)
  /\ get_entry_by_id classic_db (- 2 ^ 63 - 1) = None
  /\ Database_delete_bathtub classic_db (- 2 ^ 63 - 1)
     = (Raise (OverflowError
                 "Python int too large to convert to SQLite INTEGER"),
        classic_db).
Proof.
  split; [reflexivity |]. split.
  - exact (Database_delete_bathtub_missing classic_db 999 eq_refl).
  - split; [reflexivity |].
    exact (Database_delete_bathtub_missing classic_db (- 2 ^ 63 - 1) eq_refl).
Defined.

Lemma AddBathtubScreen_save_bathtub_saves_record_witness :
  let s := Screen "Classic" "150" "120" "70" "45" " 180 "
                  (Plain "", result_display_class) in
  get_entry_by_id
    (fst (AddBathtubScreen_save_bathtub decimal_or_nan_float
            "2024-05-01 09:30:00" empty_database s))
    1
  = Some (Bathtub 1 "Classic" 150 120 70 45 (calculate_incline 150 120 45)
                  "180" "2024-05-01 09:30:00").
Proof.
  cbv zeta.
  exact (proj1 (AddBathtubScreen_save_bathtub_saves_record
                  decimal_or_nan_float
                  "2024-05-01 09:30:00" empty_database
                  (Screen "Classic" "150" "120" "70" "45" " 180 "
                          (Plain "", result_display_class))
                  150 120 70 45
                  ltac:(discriminate) eq_refl eq_refl eq_refl eq_refl)).
Defined.



End FailureExamples.
